(** * DXF analyzer: sampling, phantom classification and aggregation

    A shallow embedding of [backend/main.py] (class [DXFProcessor]) and the
    properties of its sampler, classifier and aggregator.

    Modelling conventions.
    - A Python [float] is a real number of [R]: arithmetic is exact, without
      rounding, infinity or NaN.  [math.pi], [math.cos], [math.sin] and
      [math.sqrt] are [PI], [cos], [sin] and [sqrt].  The one limit of the
      floats that reaches the control flow is kept: [x ** 2] raises
      [OverflowError] when the square is out of the float range.
    - An entity is a duck-typed object: reading an attribute either gives a
      value or raises, [attr A].  [hasattr] is the only test the code makes,
      on [invisible], which is therefore an [option].
    - A [try]/[except] is a match on the raised case; the text of the
      exception is carried along because the code reports [str(e)].
    - A [str] is a string of bytes; [str.upper] maps the ASCII letters.
    - [round(x, n)] rounds the real [x] to [n] decimals, ties to even.
    - The dictionaries the code builds are records; a point's [to_dict] is
      the point.
    - The [{...:.2f}] formatting of a float inside a reason is a function
      [fmt2f] the development is parametric in. *)

From Stdlib Require Import Reals Lra Lia ZArith List String Ascii Bool.
Import ListNotations.

Open Scope string_scope.
Open Scope R_scope.

(** ** Data model *)

Record Point := mkPoint { px : R; py : R }.

(** The Euclidean distance: the value of [Point.distance_to] when the call
    returns (see [distance_to_call] for the call itself). *)
Definition distance_to (self other : Point) : R :=
  sqrt ((px self - px other) ^ 2 + (py self - py other) ^ 2).

Record BoundingBox := mkBoundingBox {
  min_x : R; min_y : R; max_x : R; max_y : R
}.

Definition width (b : BoundingBox) : R := max_x b - min_x b.
Definition height (b : BoundingBox) : R := max_y b - min_y b.
Definition area (b : BoundingBox) : R := width b * height b.

(** The outcome of reading an attribute of an entity. *)
Inductive attr (A : Type) : Type :=
| Val (a : A)
| Raises (msg : string).
Arguments Val {A} a.
Arguments Raises {A} msg.

Definition bind {A B : Type} (x : attr A) (f : A -> attr B) : attr B :=
  match x with
  | Val a => f a
  | Raises msg => Raises msg
  end.

Notation "x <- c ;; k" := (bind c (fun x => k))
  (at level 61, c at next level, right associativity).

(** The bound of the float range: a square that is not below
    [2^1024 - 2^970], half a step above the largest float, rounds to
    infinity, and [**] then raises [OverflowError], whose [str] is the text
    below. *)
Definition overflow_threshold : R := 2 ^ 1024 - 2 ^ 970.

Definition Rleb (x y : R) : bool := if Rle_dec x y then true else false.

Definition overflow_error : string := "(34, 'Numerical result out of range')".

(** [x ** 2] *)
Definition pow2 (x : R) : attr R :=
  if Rleb overflow_threshold (x ^ 2) then Raises overflow_error
  else Val (x ^ 2).

(** The call [self.distance_to(other)]:
    [math.sqrt((self.x - other.x)**2 + (self.y - other.y)**2)]. *)
Definition distance_to_call (self other : Point) : attr R :=
  dx2 <- pow2 (px self - px other) ;;
  dy2 <- pow2 (py self - py other) ;;
  Val (sqrt (dx2 + dy2)).

(** A modelspace entity, as the code reads it: [entity.dxftype()],
    [entity.dxf.layer], [entity.dxf.invisible], and per type the geometric
    attributes.  A polyline's vertex sequence can fail as a whole or at one
    vertex (the [float(...)] conversion of that vertex). *)
Record Entity := mkEntity {
  dxftype : string;
  dxf_layer : attr string;
  dxf_invisible : option bool;
  dxf_start : attr Point;
  dxf_end : attr Point;
  get_points : attr (list (attr Point));
  vertices : attr (list (attr Point));
  dxf_center : attr Point;
  dxf_radius : attr R;
  dxf_start_angle : attr R;
  dxf_end_angle : attr R
}.

Record ProcessedEntity := mkProcessedEntity {
  entity_type : string;
  points : list Point;
  length : R;
  layer : string;
  is_valid : bool;
  rejection_reason : option string
}.

(** ** Sampler: [DXFProcessor.get_entity_points] *)

(** [for v in seq: points.append(Point(float(..), float(..)))] under the
    enclosing [try]: the points appended before a failing vertex stay. *)
Fixpoint append_vertices (vs : list (attr Point)) : list Point :=
  match vs with
  | [] => []
  | Val p :: vs' => p :: append_vertices vs'
  | Raises _ :: _ => []
  end.

Definition range (n : nat) : list nat := seq 0 n.

(** [math.radians] *)
Definition radians (deg : R) : R := deg * PI / 180.

Definition circle_angle (i : nat) : R := 2 * PI * INR i / 16.

Definition circle_point (center : Point) (radius : R) (i : nat) : Point :=
  let angle := circle_angle i in
  mkPoint (px center + radius * cos angle) (py center + radius * sin angle).

Definition segments : nat := 16.

Definition arc_angle (start_angle end_angle : R) (i : nat) : R :=
  start_angle + (end_angle - start_angle) * INR i / INR segments.

Definition arc_point (center : Point) (radius start_angle end_angle : R)
  (i : nat) : Point :=
  let angle := arc_angle start_angle end_angle i in
  mkPoint (px center + radius * cos angle) (py center + radius * sin angle).

(** The body of the [try]; [points] is still [[]] when a LINE, CIRCLE or ARC
    attribute raises, because those reads come before the first append. *)
Definition get_entity_points (entity : Entity) : list Point :=
  if dxftype entity =? "LINE" then
    match (s <- dxf_start entity ;; e <- dxf_end entity ;; Val [s; e]) with
    | Val pts => pts
    | Raises _ => []
    end
  else if dxftype entity =? "LWPOLYLINE" then
    match get_points entity with
    | Val vs => append_vertices vs
    | Raises _ => []
    end
  else if dxftype entity =? "POLYLINE" then
    match vertices entity with
    | Val vs => append_vertices vs
    | Raises _ => []
    end
  else if dxftype entity =? "CIRCLE" then
    match (c <- dxf_center entity ;; r <- dxf_radius entity ;; Val (c, r)) with
    | Val (center, radius) => map (circle_point center radius) (range 16)
    | Raises _ => []
    end
  else if dxftype entity =? "ARC" then
    match (c <- dxf_center entity ;; r <- dxf_radius entity ;;
           s <- dxf_start_angle entity ;; e <- dxf_end_angle entity ;;
           Val (c, r, radians s, radians e)) with
    | Val (center, radius, start_angle, end_angle) =>
        map (arc_point center radius start_angle end_angle)
            (range (segments + 1))
    | Raises _ => []
    end
  else [].

(** ** Length: [DXFProcessor.calculate_entity_length] *)

Definition origin : Point := mkPoint 0 0.

(** [for i in range(len(points) - 1): total_length += ...]; a call of
    [distance_to] that raises leaves the loop. *)
Definition polyline_length (pts : list Point) : attr R :=
  fold_left
    (fun total i =>
       total_length <- total ;;
       d <- distance_to_call (nth i pts origin) (nth (i + 1) pts origin) ;;
       Val (total_length + d))
    (range (List.length pts - 1)) (Val 0).

(** Whatever is raised inside the [try] is caught, and the function then
    returns the final [0]. *)
Definition calculate_entity_length (entity : Entity) (pts : list Point) : R :=
  if dxftype entity =? "LINE" then
    match pts with
    | p0 :: p1 :: _ =>
        match distance_to_call p0 p1 with
        | Val d => d
        | Raises _ => 0
        end
    | _ => 0
    end
  else if (dxftype entity =? "LWPOLYLINE") || (dxftype entity =? "POLYLINE") then
    match polyline_length pts with
    | Val total_length => total_length
    | Raises _ => 0
    end
  else if dxftype entity =? "CIRCLE" then
    match dxf_radius entity with
    | Val radius => 2 * PI * radius
    | Raises _ => 0
    end
  else if dxftype entity =? "ARC" then
    match (r <- dxf_radius entity ;; s <- dxf_start_angle entity ;;
           e <- dxf_end_angle entity ;; Val (r, radians s, radians e)) with
    | Val (radius, start_angle, end_angle) =>
        Rabs (end_angle - start_angle) * radius
    | Raises _ => 0
    end
  else 0.

(** ** Classifier: [DXFProcessor.is_phantom_entity] *)

Definition Rltb (x y : R) : bool := if Rlt_dec x y then true else false.
Definition Rgtb (x y : R) : bool := Rltb y x.

(** [str.upper], on the ASCII letters. *)
Definition upper_ascii (c : ascii) : ascii :=
  let n := nat_of_ascii c in
  if ((97 <=? n) && (n <=? 122))%nat then ascii_of_nat (n - 32) else c.

Fixpoint upper (s : string) : string :=
  match s with
  | EmptyString => EmptyString
  | String c s' => String (upper_ascii c) (upper s')
  end.

Definition phantom_layers : list string :=
  ["DEFPOINTS"; "PHANTOM"; "HIDDEN"; "CONSTRUCTION"; "TEMP"].

Definition member (s : string) (l : list string) : bool :=
  existsb (String.eqb s) l.

(** [needle in hay] on strings. *)
Fixpoint contains (needle hay : string) : bool :=
  prefix needle hay ||
  match hay with
  | EmptyString => false
  | String _ hay' => contains needle hay'
  end.

Definition near_origin (p : Point) : bool :=
  Rltb (Rabs (px p)) 0.001 && Rltb (Rabs (py p)) 0.001.

Definition extreme (p : Point) : bool :=
  Rgtb (Rabs (px p)) 50000 || Rgtb (Rabs (py p)) 50000.

(** ** Design statistics: [DXFProcessor.get_design_statistics] *)

Definition recognized_types : list string :=
  ["LINE"; "LWPOLYLINE"; "POLYLINE"; "CIRCLE"; "ARC"].

Definition recognized (entity : Entity) : bool :=
  member (dxftype entity) recognized_types.

(** Python's [sum], [min] and [max] over a sequence of floats; [min] and
    [max] are only called on a sequence that is not empty. *)
Definition sum (xs : list R) : R := fold_left Rplus xs 0.

Definition py_min (xs : list R) : R :=
  match xs with
  | [] => 0
  | x :: xs' => fold_left Rmin xs' x
  end.

Definition py_max (xs : list R) : R :=
  match xs with
  | [] => 0
  | x :: xs' => fold_left Rmax xs' x
  end.

Definition collect_points (entities : list Entity) : list Point :=
  flat_map
    (fun entity => if recognized entity then get_entity_points entity else [])
    entities.

Definition get_design_statistics (entities : list Entity) : Point * R :=
  let all_points := collect_points entities in
  match all_points with
  | [] => (mkPoint 0 0, 1000)
  | _ =>
      let center_x := sum (map px all_points) / INR (List.length all_points) in
      let center_y := sum (map py all_points) / INR (List.length all_points) in
      let center := mkPoint center_x center_y in
      let min_x := py_min (map px all_points) in
      let max_x := py_max (map px all_points) in
      let min_y := py_min (map py all_points) in
      let max_y := py_max (map py all_points) in
      (center, Rmax (max_x - min_x) (max_y - min_y))
  end.

(** ** Bounding box: [DXFProcessor.calculate_bounding_box] *)

Definition calculate_bounding_box (entities : list ProcessedEntity)
  : BoundingBox :=
  match entities with
  | [] => mkBoundingBox 0 0 0 0
  | _ =>
      let all_points := flat_map points entities in
      match all_points with
      | [] => mkBoundingBox 0 0 0 0
      | _ =>
          mkBoundingBox (py_min (map px all_points)) (py_min (map py all_points))
                        (py_max (map px all_points)) (py_max (map py all_points))
      end
  end.

(** ** Result records of [DXFProcessor.process_dxf_file] *)

(** The processor object and its two lists ([self]). *)
Record DXFProcessor := mkDXFProcessor {
  valid_entities : list ProcessedEntity;
  phantom_entities : list ProcessedEntity
}.

(** Python's [round(x, ndigits)]: the nearest multiple of [10^-ndigits], a
    tie going to the even one. *)
Definition round_half_even (x : R) : Z :=
  let f := Int_part x in
  let d := x - IZR f in
  if Rlt_dec d (1 / 2) then f
  else if Rlt_dec (1 / 2) d then (f + 1)%Z
  else if Z.even f then f else (f + 1)%Z.

Definition round (x : R) (ndigits : nat) : R :=
  IZR (round_half_even (x * 10 ^ ndigits)) / 10 ^ ndigits.

Module Stats.
Record t := mk {
  total_entities : nat;
  valid_entities : nat;
  phantom_entities : nat;
  design_center : Point;
  max_design_dimension : R
}.
End Stats.

Record CutLength := mkCutLength { total_mm : R; total_m : R }.

(** The dictionary returned on success. *)
Record AnalysisResult := mkAnalysisResult {
  statistics : Stats.t;
  bounding_box : BoundingBox;
  cut_length : CutLength;
  entities_valid : list ProcessedEntity;
  entities_phantom : list ProcessedEntity
}.

(** What [process_dxf_file] returns: the result dictionary, or the
    [success: False] dictionary with [str(e)]. *)
Inductive Response :=
| Success (result : AnalysisResult)
| Failure (error : string).

(** [hasattr(entity.dxf, 'invisible') and entity.dxf.invisible] *)
Definition has_invisible (entity : Entity) : bool :=
  match dxf_invisible entity with
  | Some flag => flag
  | None => false
  end.

Section Pipeline.

(** The [:.2f] rendering of a float. *)
Variable fmt2f : R -> string.

(** Rule 3 of the classifier, the LINE filters; [None] when none applies.
    The two calls of [distance_to] can raise. *)
Definition line_rules (start end_ design_center : Point)
  (max_design_dimension : R) : attr (option (bool * string)) :=
  if near_origin start || near_origin end_ then
    Val (Some (true, "Línea conecta con origen (0,0)"))
  else
    line_length <- distance_to_call start end_ ;;
    if Rgtb line_length (max_design_dimension * 10) then
      Val (Some (true, "Línea demasiado larga: " ++ fmt2f line_length ++ "mm"))
    else
      let line_center :=
        mkPoint ((px start + px end_) / 2) ((py start + py end_) / 2) in
      distance_to_design <- distance_to_call line_center design_center ;;
      if Rgtb distance_to_design (max_design_dimension * 5) then
        Val (Some (true, "Línea alejada del diseño: "
                         ++ fmt2f distance_to_design ++ "mm"))
      else Val None.

(** Rule 4, the first point with an extreme coordinate. *)
Definition extreme_rule (pts : list Point) : bool * string :=
  match find extreme pts with
  | Some point =>
      (true, "Coordenadas extremas: (" ++ fmt2f (px point) ++ ", "
             ++ fmt2f (py point) ++ ")")
  | None => (false, "Entidad válida")
  end.

(** The body of the [try] of [is_phantom_entity]. *)
Definition phantom_rules (entity : Entity) (pts : list Point)
  (design_center : Point) (max_design_dimension : R) : attr (bool * string) :=
  l <- dxf_layer entity ;;
  let layer_name := upper l in
  if member layer_name phantom_layers then
    Val (true, "Capa fantasma: " ++ layer_name)
  else if has_invisible entity then
    Val (true, "Entidad invisible")
  else
    line_verdict <-
      (if dxftype entity =? "LINE" then
         match pts with
         | start :: end_ :: _ =>
             line_rules start end_ design_center max_design_dimension
         | _ => Val None
         end
       else Val None) ;;
    match line_verdict with
    | Some verdict => Val verdict
    | None => Val (extreme_rule pts)
    end.

Definition is_phantom_entity (entity : Entity) (pts : list Point)
  (design_center : Point) (max_design_dimension : R) : bool * string :=
  match pts with
  | [] => (true, "Sin puntos válidos")
  | _ =>
      match phantom_rules entity pts design_center max_design_dimension with
      | Val verdict => verdict
      | Raises e => (true, "Error procesando entidad: " ++ e)
      end
  end.

(** ** Aggregation: [DXFProcessor.process_dxf_file] *)

(** One iteration of [for entity in all_entities]; the second component is
    the exception that leaves the loop, if any. *)
Definition process_entity (design_center : Point) (max_design_dimension : R)
  (self : DXFProcessor) (entity : Entity) : DXFProcessor * option string :=
  if negb (recognized entity) then (self, None)
  else
    let pts := get_entity_points entity in
    match pts with
    | [] => (self, None)
    | _ =>
        let '(is_phantom, reason) :=
          is_phantom_entity entity pts design_center max_design_dimension in
        let len := calculate_entity_length entity pts in
        match dxf_layer entity with
        | Raises e => (self, Some e)
        | Val l =>
            let processed_entity :=
              mkProcessedEntity (dxftype entity) pts len l (negb is_phantom)
                                (if is_phantom then Some reason else None) in
            if is_phantom then
              (mkDXFProcessor (valid_entities self)
                              (phantom_entities self ++ [processed_entity]),
               None)
            else
              (mkDXFProcessor (valid_entities self ++ [processed_entity])
                              (phantom_entities self),
               None)
        end
    end.

Fixpoint process_loop (design_center : Point) (max_design_dimension : R)
  (entities : list Entity) (self : DXFProcessor)
  : DXFProcessor * option string :=
  match entities with
  | [] => (self, None)
  | entity :: rest =>
      match process_entity design_center max_design_dimension self entity with
      | (self', None) =>
          process_loop design_center max_design_dimension rest self'
      | (self', Some e) => (self', Some e)
      end
  end.

(** [process_dxf_file] from [all_entities = list(msp)] on; [self] is the
    processor the call is made on, and is returned as the call leaves it. *)
Definition process_entities (self : DXFProcessor) (all_entities : list Entity)
  : DXFProcessor * Response :=
  let self0 := mkDXFProcessor [] [] in
  let '(design_center, max_design_dimension) :=
    get_design_statistics all_entities in
  match process_loop design_center max_design_dimension all_entities self0 with
  | (self1, Some e) => (self1, Failure e)
  | (self1, None) =>
      let bbox := calculate_bounding_box (valid_entities self1) in
      let total_cut_length := sum (map length (valid_entities self1)) in
      (self1,
       Success
         (mkAnalysisResult
            (Stats.mk (List.length all_entities)
                      (List.length (valid_entities self1))
                      (List.length (phantom_entities self1))
                      design_center max_design_dimension)
            bbox
            (mkCutLength (round total_cut_length 2)
                         (round (total_cut_length / 1000) 3))
            (valid_entities self1) (phantom_entities self1)))
  end.

(** [doc = ezdxf.readfile(file_path)] may itself raise, inside the same
    [try]; the lists of [self] are then not reset. *)
Definition process_dxf_file (self : DXFProcessor)
  (modelspace : attr (list Entity)) : DXFProcessor * Response :=
  match modelspace with
  | Raises e => (self, Failure e)
  | Val all_entities => process_entities self all_entities
  end.

(** ** Reference descriptions of the partitions

    What the loop is expected to compute, written over the input list without
    the accumulators: an entity is kept when its type is recognized and its
    sampling is not empty; a kept entity is valid when the classifier does
    not call it a phantom. *)

Definition kept (entity : Entity) : bool :=
  recognized entity &&
  match get_entity_points entity with [] => false | _ => true end.

Definition classified_valid (all_entities : list Entity) (entity : Entity)
  : bool :=
  let '(design_center, max_design_dimension) :=
    get_design_statistics all_entities in
  kept entity &&
  negb (fst (is_phantom_entity entity (get_entity_points entity)
                               design_center max_design_dimension)).

Definition classified_phantom (all_entities : list Entity) (entity : Entity)
  : bool :=
  let '(design_center, max_design_dimension) :=
    get_design_statistics all_entities in
  kept entity &&
  fst (is_phantom_entity entity (get_entity_points entity)
                         design_center max_design_dimension).

Definition sampled_length (entity : Entity) : R :=
  calculate_entity_length entity (get_entity_points entity).

Definition valid_length (all_entities : list Entity) : R :=
  sum (map sampled_length
           (filter (classified_valid all_entities) all_entities)).

End Pipeline.

(** The same response with one more entity in [total_entities]. *)
Definition count_one_more (response : Response) : Response :=
  match response with
  | Failure e => Failure e
  | Success r =>
      let st := statistics r in
      Success
        (mkAnalysisResult
           (Stats.mk (S (Stats.total_entities st)) (Stats.valid_entities st)
                     (Stats.phantom_entities st) (Stats.design_center st)
                     (Stats.max_design_dimension st))
           (bounding_box r) (cut_length r)
           (entities_valid r) (entities_phantom r))
  end.

(** The reason of the origin rule, as a test on the text. *)
Definition mentions_origin (reason : string) : bool :=
  contains "origen" reason.

(** [|x| < 0.001] and [|y| < 0.001]. *)
Definition within_origin (p : Point) : Prop :=
  Rabs (px p) < 0.001 /\ Rabs (py p) < 0.001.

(** ** Sample inputs *)

(** An object carrying only a type tag and a layer: every other attribute
    raises when read. *)
Definition bare (type_tag layer_name : string) : Entity :=
  mkEntity type_tag (Val layer_name) None
           (Raises "start") (Raises "end") (Raises "get_points")
           (Raises "vertices") (Raises "center") (Raises "radius")
           (Raises "start_angle") (Raises "end_angle").

Definition line_entity (layer_name : attr string) (invisible : option bool)
  (a b : Point) : Entity :=
  mkEntity "LINE" layer_name invisible (Val a) (Val b)
           (Raises "get_points") (Raises "vertices") (Raises "center")
           (Raises "radius") (Raises "start_angle") (Raises "end_angle").

Definition circle_entity (layer_name : string) (c : Point) (r : R) : Entity :=
  mkEntity "CIRCLE" (Val layer_name) None (Raises "start") (Raises "end")
           (Raises "get_points") (Raises "vertices") (Val c) (Val r)
           (Raises "start_angle") (Raises "end_angle").

Definition arc_entity (layer_name : string) (c : Point) (r s e : R) : Entity :=
  mkEntity "ARC" (Val layer_name) None (Raises "start") (Raises "end")
           (Raises "get_points") (Raises "vertices") (Val c) (Val r)
           (Val s) (Val e).

(** A stand-in for the two-decimal rendering, for the concrete runs. *)
Definition fmt_sample (x : R) : string := "0.00".

Definition no_text : Entity := bare "TEXT" "0".
Definition unreadable_line : Entity := bare "LINE" "0".

Definition cut_line : Entity :=
  line_entity (Val "CUT") None (mkPoint 1 1) (mkPoint 2 2).
Definition defpoints_line : Entity :=
  line_entity (Val "defpoints") None (mkPoint 1 1) (mkPoint 2 2).
Definition origin_line_on_defpoints : Entity :=
  line_entity (Val "DEFPOINTS") None (mkPoint 0 0) (mkPoint 10 0).
Definition origin_line : Entity :=
  line_entity (Val "CUT") None (mkPoint 0 0) (mkPoint 10 0).

Definition fresh : DXFProcessor := mkDXFProcessor [] [].

(** A small design: a text, a line to cut, a line that cannot be read and a
    line on the layer of the dimension points; and what the run reports. *)
Definition sample_design : list Entity :=
  [no_text; cut_line; unreadable_line; defpoints_line].

Definition sample_valid : ProcessedEntity :=
  mkProcessedEntity "LINE" [mkPoint 1 1; mkPoint 2 2]
                    (distance_to (mkPoint 1 1) (mkPoint 2 2)) "CUT" true None.

Definition sample_phantom : ProcessedEntity :=
  mkProcessedEntity "LINE" [mkPoint 1 1; mkPoint 2 2]
                    (distance_to (mkPoint 1 1) (mkPoint 2 2)) "defpoints" false
                    (Some "Capa fantasma: DEFPOINTS").

Definition sample_result : AnalysisResult :=
  mkAnalysisResult
    (Stats.mk 4 1 1 (mkPoint (3 / 2) (3 / 2)) 1)
    (calculate_bounding_box [sample_valid])
    (mkCutLength
       (round (sum [distance_to (mkPoint 1 1) (mkPoint 2 2)]) 2)
       (round (sum [distance_to (mkPoint 1 1) (mkPoint 2 2)] / 1000) 3))
    [sample_valid] [sample_phantom].

(** ** Reference descriptions for the further properties *)

(** A point within a box, borders included. *)
Definition inside (b : BoundingBox) (p : Point) : Prop :=
  min_x b <= px p <= max_x b /\ min_y b <= py p <= max_y b.

(** The text of the extreme-coordinates reason for a point. *)
Definition extreme_reason (fmt2f : R -> string) (p : Point) : string :=
  "Coordenadas extremas: (" ++ fmt2f (px p) ++ ", " ++ fmt2f (py p) ++ ")".

(** [p] is the record the loop builds for the entity [e], under the design
    statistics [c] and [m]. *)
Definition record_of (fmt2f : R -> string) (c : Point) (m : R) (e : Entity)
  (p : ProcessedEntity) : Prop :=
  let verdict := is_phantom_entity fmt2f e (get_entity_points e) c m in
  kept e = true /\
  exists l,
    dxf_layer e = Val l /\
    p = mkProcessedEntity (dxftype e) (get_entity_points e) (sampled_length e)
                          l (negb (fst verdict))
                          (if fst verdict then Some (snd verdict) else None).

(** A polyline entity of either kind over the given vertex reads. *)
Definition lwpolyline_entity (layer_name : string) (vs : list (attr Point))
  : Entity :=
  mkEntity "LWPOLYLINE" (Val layer_name) None (Raises "start") (Raises "end")
           (Val vs) (Raises "vertices") (Raises "center") (Raises "radius")
           (Raises "start_angle") (Raises "end_angle").

Definition polyline_entity (layer_name : string) (vs : list (attr Point))
  : Entity :=
  mkEntity "POLYLINE" (Val layer_name) None (Raises "start") (Raises "end")
           (Raises "get_points") (Val vs) (Raises "center") (Raises "radius")
           (Raises "start_angle") (Raises "end_angle").

(** Further sample inputs. *)
Definition broken_polyline : Entity :=
  lwpolyline_entity "CUT"
    [Val (mkPoint 0 0); Val (mkPoint 3 4); Raises "vertex"; Val (mkPoint 9 9)].

Definition square_path : list Point :=
  [mkPoint 0 0; mkPoint 1 0; mkPoint 1 1; mkPoint 0 1].

Definition far_polyline : Entity :=
  polyline_entity "CUT" [Val (mkPoint 1 1); Val (mkPoint 60000 0)].

Definition hidden_line : Entity :=
  line_entity (Val "CUT") (Some true) (mkPoint 1 1) (mkPoint 2 2).

Definition unit_circle : Entity := circle_entity "CUT" (mkPoint 5 5) 1.

Definition arc_forward : Entity := arc_entity "CUT" (mkPoint 0 0) 2 350 10.
Definition arc_backward : Entity := arc_entity "CUT" (mkPoint 0 0) 2 10 350.
Definition arc_turn : Entity := arc_entity "CUT" (mkPoint 0 0) 2 90 (90 + 360).


(** Two points whose squared distance is within the float range, so that
    [distance_to] between them returns, and returns a finite value: neither
    square overflows, nor does their sum become infinite. *)
Definition in_range (a b : Point) : Prop :=
  (px a - px b) ^ 2 + (py a - py b) ^ 2 < overflow_threshold.

Definition far_x : R := 2 ^ 600.

(** A line to a point far outside the float range of a square. *)
Definition overflowing_line : Entity :=
  line_entity (Val "CUT") None (mkPoint 1 1) (mkPoint far_x 1).

(** ** Calls that overlap

    [process_dxf_file] as a sequence of steps, so that two calls can be
    interleaved.  A call has its local variables; the two lists of the
    processor it is made on are what it shares with any other call made on
    the same object, as every request of a worker does with the module-level
    [processor]. *)

(** What [process_dxf_file] returns after the loop. *)
Definition report (all_entities : list Entity) (design_center : Point)
  (max_design_dimension : R) (self : DXFProcessor) : AnalysisResult :=
  let bbox := calculate_bounding_box (valid_entities self) in
  let total_cut_length := sum (map length (valid_entities self)) in
  mkAnalysisResult
    (Stats.mk (List.length all_entities)
              (List.length (valid_entities self))
              (List.length (phantom_entities self))
              design_center max_design_dimension)
    bbox
    (mkCutLength (round total_cut_length 2) (round (total_cut_length / 1000) 3))
    (valid_entities self) (phantom_entities self).

(** Where a call is: entered, in the loop with its local variables and the
    entities still to visit, or returned. *)
Inductive Phase :=
| Entered
| Looping (design_center : Point) (max_design_dimension : R)
          (rest : list Entity)
| Returned (response : Response).

(** A call: the processor object it is made on, its input, where it is. *)
Record Call := mkCall {
  target : nat;
  all_entities : list Entity;
  phase : Phase
}.

(** One step of a call on its processor [self]: the reset of the lists with
    the design statistics, one iteration of the loop, or the building of the
    result from the lists as they are then. *)
Definition step_on (fmt2f : R -> string) (self : DXFProcessor) (call : Call)
  : DXFProcessor * Call :=
  let at_phase := mkCall (target call) (all_entities call) in
  match phase call with
  | Entered =>
      let '(design_center, max_design_dimension) :=
        get_design_statistics (all_entities call) in
      (mkDXFProcessor [] [],
       at_phase (Looping design_center max_design_dimension
                         (all_entities call)))
  | Looping c m [] =>
      (self, at_phase (Returned (Success (report (all_entities call) c m self))))
  | Looping c m (entity :: rest) =>
      match process_entity fmt2f c m self entity with
      | (self', None) => (self', at_phase (Looping c m rest))
      | (self', Some e) => (self', at_phase (Returned (Failure e)))
      end
  | Returned _ => (self, call)
  end.

(** The processor objects of the process. *)
Definition Heap := nat -> DXFProcessor.

Definition update (h : Heap) (k : nat) (v : DXFProcessor) : Heap :=
  fun j => if Nat.eqb j k then v else h j.

Definition step (fmt2f : R -> string) (h : Heap) (call : Call) : Heap * Call :=
  let '(self', call') := step_on fmt2f (h (target call)) call in
  (update h (target call) self', call').

(** Two calls under a schedule: [true] lets the first call make its next
    step, [false] the second. *)
Fixpoint interleave (fmt2f : R -> string) (schedule : list bool) (h : Heap)
  (a b : Call) : Heap * Call * Call :=
  match schedule with
  | [] => (h, a, b)
  | true :: schedule' =>
      let '(h', a') := step fmt2f h a in interleave fmt2f schedule' h' a' b
  | false :: schedule' =>
      let '(h', b') := step fmt2f h b in interleave fmt2f schedule' h' a b'
  end.

(** A call left alone for [n] steps. *)
Fixpoint alone (fmt2f : R -> string) (n : nat) (self : DXFProcessor)
  (call : Call) : DXFProcessor * Call :=
  match n with
  | O => (self, call)
  | S n' => let '(self', call') := step_on fmt2f self call in
            alone fmt2f n' self' call'
  end.

(** The steps the call needs: the reset, one per entity, the result. *)
Definition steps_needed (call : Call) : nat :=
  List.length (all_entities call) + 2.

(** How many steps the schedule gives to the first ([true]) or to the second
    ([false]) call. *)
Definition turns (who : bool) (schedule : list bool) : nat :=
  List.length (filter (Bool.eqb who) schedule).

Definition enter (k : nat) (input : list Entity) : Call :=
  mkCall k input Entered.

Definition fresh_heap : Heap := fun _ => mkDXFProcessor [] [].

Definition overlap_schedule : list bool :=
  [true; false; false; true; true; false].


(** The midpoint of a line, [line_center] in the classifier. *)
Definition line_center (start end_ : Point) : Point :=
  mkPoint ((px start + px end_) / 2) ((py start + py end_) / 2).


(** * Properties *)

(** ** Sampler *)

Lemma distance_on_circle (c : Point) (r a : R) :
  distance_to (mkPoint (px c + r * cos a) (py c + r * sin a)) c = Rabs r.
Proof.
  unfold distance_to; cbn [px py].
  replace ((px c + r * cos a - px c) ^ 2 + (py c + r * sin a - py c) ^ 2)
    with (r² * ((sin a)² + (cos a)²)) by (unfold Rsqr; ring).
  rewrite sin2_cos2, Rmult_1_r.
  apply sqrt_Rsqr_abs.
Qed.

Lemma get_entity_points_circle (e : Entity) (c : Point) (r : R) :
  dxftype e = "CIRCLE" -> dxf_center e = Val c -> dxf_radius e = Val r ->
  get_entity_points e = map (circle_point c r) (range 16).
Proof.
  intros Ht Hc Hr. unfold get_entity_points. rewrite Ht, Hc, Hr. reflexivity.
Qed.

Lemma get_entity_points_arc (e : Entity) (c : Point) (r s t : R) :
  dxftype e = "ARC" -> dxf_center e = Val c -> dxf_radius e = Val r ->
  dxf_start_angle e = Val s -> dxf_end_angle e = Val t ->
  get_entity_points e =
  map (arc_point c r (radians s) (radians t)) (range (segments + 1)).
Proof.
  intros Ht Hc Hr Hs He. unfold get_entity_points.
  rewrite Ht, Hc, Hr, Hs, He. reflexivity.
Qed.

Lemma nth_map_range {A : Type} (f : nat -> A) (d : A) (n i : nat) :
  (i < n)%nat -> nth i (map f (range n)) d = f i.
Proof.
  intros Hi. unfold range.
  rewrite (nth_indep _ d (f 0%nat)) by (rewrite length_map, length_seq; exact Hi).
  rewrite map_nth, seq_nth by exact Hi. reflexivity.
Qed.

(** C5 (as the code has it).  A CIRCLE whose center [c] and radius [r] can be
    read is sampled as exactly 16 points, the [i]-th at angle [2*PI*i/16];
    every sample is at distance [|r|] from [c] (which is [r] when the radius
    is not negative); the length is the closed form [2*PI*r]. *)
Theorem circle_sampling (e : Entity) (c : Point) (r : R) :
  dxftype e = "CIRCLE" -> dxf_center e = Val c -> dxf_radius e = Val r ->
  List.length (get_entity_points e) = 16%nat /\
  (forall i, (i < 16)%nat ->
     nth i (get_entity_points e) origin =
     mkPoint (px c + r * cos (2 * PI * INR i / 16))
             (py c + r * sin (2 * PI * INR i / 16))) /\
  (forall p, In p (get_entity_points e) -> distance_to p c = Rabs r) /\
  (0 <= r -> forall p, In p (get_entity_points e) -> distance_to p c = r) /\
  calculate_entity_length e (get_entity_points e) = 2 * PI * r.
Proof.
  intros Ht Hc Hr.
  rewrite (get_entity_points_circle e c r Ht Hc Hr).
  assert (Hd : forall p, In p (map (circle_point c r) (range 16)) ->
                         distance_to p c = Rabs r).
  { intros p Hp. apply in_map_iff in Hp. destruct Hp as [i [<- _]].
    apply distance_on_circle. }
  split; [reflexivity|].
  split; [intros i Hi; rewrite nth_map_range by exact Hi; reflexivity|].
  split; [exact Hd|].
  split.
  - intros Hr0 p Hp. rewrite (Hd p Hp). apply Rabs_pos_eq, Hr0.
  - unfold calculate_entity_length. rewrite Ht, Hr. reflexivity.
Qed.

(** C5, the claim as stated fails on a radius below zero: the samples of the
    circle of radius [-1] around the origin are at distance [1], not [-1]. *)
Lemma circle_negative_radius_counterexample :
  ~ (forall p, In p (get_entity_points (circle_entity "0" origin (-1))) ->
               distance_to p origin = -1).
Proof.
  intros H.
  specialize (H (circle_point origin (-1) 0)).
  assert (Hin : In (circle_point origin (-1) 0)
                   (get_entity_points (circle_entity "0" origin (-1)))).
  { rewrite (get_entity_points_circle _ origin (-1)) by reflexivity.
    apply in_map. unfold range. apply in_seq. lia. }
  specialize (H Hin).
  unfold circle_point in H. rewrite distance_on_circle in H.
  pose proof (Rabs_pos (-1)). lra.
Qed.

Lemma circle_sampling_witness :
  let e := circle_entity "0" (mkPoint 1 2) 3 in
  List.length (get_entity_points e) = 16%nat /\
  (forall p, In p (get_entity_points e) -> distance_to p (mkPoint 1 2) = 3) /\
  calculate_entity_length e (get_entity_points e) = 2 * PI * 3.
Proof.
  intros e.
  destruct (circle_sampling e (mkPoint 1 2) 3 eq_refl eq_refl eq_refl)
    as [Hlen [_ [_ [Hd Hl]]]].
  split; [exact Hlen|]. split; [|exact Hl].
  apply Hd. lra.
Defined.

Lemma arc_angle_first (s t : R) : arc_angle s t 0 = s.
Proof.
  unfold arc_angle. change (INR 0) with 0. field. apply not_0_INR. discriminate.
Qed.

Lemma arc_angle_last (s t : R) : arc_angle s t segments = t.
Proof.
  unfold arc_angle. field. apply not_0_INR. discriminate.
Qed.

(** C6.  An ARC whose center, radius and two angles (in degrees) can be read
    is sampled as exactly 17 points, the [i]-th at the angle
    [start + (end - start) * i / 16] of the angles turned into radians, with
    the signed difference taken as it is; the first and the last sample are
    the positions at the start and at the end angle; the length is the closed
    form [|end - start| * radius]. *)
Theorem arc_sampling (e : Entity) (c : Point) (r sdeg edeg : R) :
  dxftype e = "ARC" -> dxf_center e = Val c -> dxf_radius e = Val r ->
  dxf_start_angle e = Val sdeg -> dxf_end_angle e = Val edeg ->
  let start_angle := sdeg * PI / 180 in
  let end_angle := edeg * PI / 180 in
  let at_angle a := mkPoint (px c + r * cos a) (py c + r * sin a) in
  List.length (get_entity_points e) = 17%nat /\
  (forall i, (i <= 16)%nat ->
     nth i (get_entity_points e) origin =
     at_angle (start_angle + (end_angle - start_angle) * INR i / 16)) /\
  hd_error (get_entity_points e) = Some (at_angle start_angle) /\
  last (get_entity_points e) origin = at_angle end_angle /\
  calculate_entity_length e (get_entity_points e) =
  Rabs (end_angle - start_angle) * r.
Proof.
  intros Ht Hc Hr Hs He start_angle end_angle at_angle.
  rewrite (get_entity_points_arc e c r sdeg edeg Ht Hc Hr Hs He).
  fold (radians sdeg) in start_angle. fold (radians edeg) in end_angle.
  split; [reflexivity|].
  split.
  { intros i Hi. rewrite nth_map_range by (unfold segments; lia).
    unfold arc_point, arc_angle, at_angle, start_angle, end_angle, segments.
    repeat f_equal; simpl; lra. }
  split.
  { cbn [range seq segments Nat.add map hd_error].
    unfold arc_point. rewrite arc_angle_first. reflexivity. }
  split.
  { change (range (segments + 1)) with (seq 0 16 ++ [segments])%list.
    rewrite map_app. cbn [map]. rewrite last_last.
    unfold arc_point. rewrite arc_angle_last. reflexivity. }
  unfold calculate_entity_length. rewrite Ht, Hr, Hs, He. reflexivity.
Qed.

Lemma arc_sampling_witness :
  let e := arc_entity "0" (mkPoint 1 2) 3 350 10 in
  List.length (get_entity_points e) = 17%nat /\
  calculate_entity_length e (get_entity_points e) =
  Rabs (10 * PI / 180 - 350 * PI / 180) * 3.
Proof.
  intros e.
  destruct (arc_sampling e (mkPoint 1 2) 3 350 10
              eq_refl eq_refl eq_refl eq_refl eq_refl)
    as [Hlen [_ [_ [_ Hl]]]].
  split; [exact Hlen | exact Hl].
Defined.

(** ** Classifier *)

Lemma Rltb_true (x y : R) : Rltb x y = true <-> x < y.
Proof.
  unfold Rltb. destruct (Rlt_dec x y); split; intros; try easy.
Qed.

Lemma near_origin_true (p : Point) : near_origin p = true <-> within_origin p.
Proof.
  unfold near_origin, within_origin.
  rewrite andb_true_iff, !Rltb_true. reflexivity.
Qed.

Lemma prefix_same (s : string) : prefix s s = true.
Proof.
  induction s as [|a s IH]; [reflexivity|].
  simpl. destruct (ascii_dec a a); [exact IH | congruence].
Qed.

Lemma contains_suffix (needle pre : string) :
  contains needle (pre ++ needle) = true.
Proof.
  induction pre as [|a pre IH].
  - destruct needle; simpl; [reflexivity|].
    rewrite orb_true_iff. left.
    destruct (ascii_dec a a); [apply prefix_same | congruence].
  - cbn [append contains]. rewrite IH. apply orb_true_r.
Qed.

Section ClassifierProperties.

Variable fmt2f : R -> string.

(** The classifier has a verdict for every input: what the rules raise
    becomes a phantom verdict that quotes the exception. *)
Lemma is_phantom_entity_on_error (e : Entity) (p : Point) (pts : list Point)
  (c : Point) (m : R) (msg : string) :
  phantom_rules fmt2f e (p :: pts) c m = Raises msg ->
  is_phantom_entity fmt2f e (p :: pts) c m =
  (true, "Error procesando entidad: " ++ msg).
Proof.
  intros H. unfold is_phantom_entity. rewrite H. reflexivity.
Qed.

Lemma phantom_rules_raises (e : Entity) (pts : list Point) (c : Point) (m : R)
  (msg : string) :
  dxf_layer e = Raises msg -> phantom_rules fmt2f e pts c m = Raises msg.
Proof.
  intros H. unfold phantom_rules. rewrite H. reflexivity.
Qed.

(** C4.  A primitive whose layer name, upper-cased, is one of DEFPOINTS,
    PHANTOM, HIDDEN, CONSTRUCTION, TEMP is a phantom whatever its points,
    type and visibility are; when the point sequence is not empty (so that
    the layer rule is the first to match) the reason is
    ["Capa fantasma: "] followed by the upper-cased layer name. *)
Theorem phantom_layer_verdict (e : Entity) (pts : list Point) (c : Point)
  (m : R) (l : string) :
  dxf_layer e = Val l ->
  member (upper l) phantom_layers = true ->
  fst (is_phantom_entity fmt2f e pts c m) = true /\
  (pts <> [] ->
   snd (is_phantom_entity fmt2f e pts c m) = "Capa fantasma: " ++ upper l /\
   contains (upper l) (snd (is_phantom_entity fmt2f e pts c m)) = true).
Proof.
  intros Hl Hm.
  destruct pts as [|p pts]; [split; [reflexivity | congruence]|].
  assert (Hv : is_phantom_entity fmt2f e (p :: pts) c m =
               (true, "Capa fantasma: " ++ upper l)).
  { unfold is_phantom_entity, phantom_rules. rewrite Hl. cbn [bind].
    rewrite Hm. reflexivity. }
  rewrite Hv. split; [reflexivity|]. intros _.
  split; [reflexivity | apply contains_suffix].
Qed.

(** C3 (as the code has it).  A LINE with an endpoint within 0.001 of the
    origin in both axes (strictly) is a phantom whatever its layer and
    visibility are.  The reason is the one of the origin rule when the layer
    can be read, is not a rejected layer and the line is not invisible;
    otherwise an earlier rule gives the reason. *)
Theorem line_to_origin_verdict (e : Entity) (a b c : Point) (m : R) :
  dxftype e = "LINE" -> dxf_start e = Val a -> dxf_end e = Val b ->
  within_origin a \/ within_origin b ->
  get_entity_points e = [a; b] /\
  fst (is_phantom_entity fmt2f e (get_entity_points e) c m) = true /\
  (forall l, dxf_layer e = Val l ->
     member (upper l) phantom_layers = false -> has_invisible e = false ->
     snd (is_phantom_entity fmt2f e (get_entity_points e) c m) =
     "Línea conecta con origen (0,0)" /\
     mentions_origin
       (snd (is_phantom_entity fmt2f e (get_entity_points e) c m)) = true).
Proof.
  intros Ht Ha Hb Hnear.
  assert (Hpts : get_entity_points e = [a; b]).
  { unfold get_entity_points. rewrite Ht, Ha, Hb. reflexivity. }
  assert (Hn : near_origin a || near_origin b = true).
  { apply orb_true_iff. rewrite !near_origin_true. exact Hnear. }
  rewrite Hpts. split; [reflexivity|].
  unfold is_phantom_entity, phantom_rules.
  destruct (dxf_layer e) as [l|msg]; cbn [bind].
  - destruct (member (upper l) phantom_layers) eqn:Hm.
    + split; [reflexivity|]. intros l' Hl' Hm'.
      injection Hl' as <-. congruence.
    + destruct (has_invisible e) eqn:Hi.
      * split; [reflexivity|]. intros; congruence.
      * rewrite Ht. cbn [String.eqb Ascii.eqb Bool.eqb]. unfold line_rules.
        rewrite Hn. split; [reflexivity|]. intros; split; reflexivity.
  - split; [reflexivity|]. intros; congruence.
Qed.

End ClassifierProperties.

(** ** Aggregation *)

Lemma round_zero (ndigits : nat) : round 0 ndigits = 0.
Proof.
  assert (H0 : Int_part 0 = 0%Z) by exact (Int_part_INR 0).
  unfold round, round_half_even. rewrite Rmult_0_l, H0.
  destruct (Rlt_dec (0 - 0) (1 / 2)) as [_|H]; [|exfalso; apply H; lra].
  unfold Rdiv. apply Rmult_0_l.
Qed.

Lemma collect_points_skip (pre post : list Entity) (e : Entity) :
  get_entity_points e = [] ->
  collect_points (pre ++ e :: post) = collect_points (pre ++ post).
Proof.
  intros He. unfold collect_points. rewrite !flat_map_app. cbn [flat_map].
  rewrite He. destruct (recognized e); reflexivity.
Qed.

Lemma get_design_statistics_skip (pre post : list Entity) (e : Entity) :
  get_entity_points e = [] ->
  get_design_statistics (pre ++ e :: post) = get_design_statistics (pre ++ post).
Proof.
  intros He. unfold get_design_statistics.
  rewrite (collect_points_skip pre post e He). reflexivity.
Qed.

Lemma collect_points_unrecognized (es : list Entity) :
  (forall e, In e es -> recognized e = false) -> collect_points es = [].
Proof.
  intros H. unfold collect_points.
  induction es as [|e es IH]; [reflexivity|].
  cbn [flat_map]. rewrite (H e (or_introl eq_refl)).
  apply IH. intros e' He'. apply H. right. exact He'.
Qed.

Section PipelineProperties.

Variable fmt2f : R -> string.

Lemma process_entity_skip (c : Point) (m : R) (self : DXFProcessor)
  (e : Entity) :
  kept e = false -> process_entity fmt2f c m self e = (self, None).
Proof.
  unfold kept, process_entity. intros H.
  destruct (recognized e); [|reflexivity].
  destruct (get_entity_points e); [reflexivity | discriminate].
Qed.

Lemma kept_empty (e : Entity) : get_entity_points e = [] -> kept e = false.
Proof.
  unfold kept. intros ->. apply andb_false_r.
Qed.

Lemma process_loop_skip (c : Point) (m : R) (e : Entity) (post : list Entity) :
  kept e = false ->
  forall (pre : list Entity) (self : DXFProcessor),
    process_loop fmt2f c m (pre ++ e :: post) self =
    process_loop fmt2f c m (pre ++ post) self.
Proof.
  intros He pre. induction pre as [|x pre IH]; intros self.
  - cbn [app process_loop]. rewrite (process_entity_skip c m self e He).
    reflexivity.
  - cbn [app process_loop].
    destruct (process_entity fmt2f c m self x) as [self' [msg|]];
      [reflexivity | apply IH].
Qed.

Lemma process_loop_unrecognized (c : Point) (m : R) (es : list Entity) :
  (forall e, In e es -> recognized e = false) ->
  forall self, process_loop fmt2f c m es self = (self, None).
Proof.
  induction es as [|e es IH]; intros H self; [reflexivity|].
  cbn [process_loop]. rewrite process_entity_skip.
  - apply IH. intros e' He'. apply H. right. exact He'.
  - unfold kept. rewrite (H e (or_introl eq_refl)). reflexivity.
Qed.

(** C1 (as the code has it).  A primitive of a recognized type whose sampling
    is empty does not abort the run.  The classifier, given its empty point
    sequence, answers phantom with the reason ["Sin puntos válidos"]; the
    loop however leaves the primitive out before classifying it: the run over
    the input with the primitive is the run over the input without it, with
    one more entity in [total_entities], so the primitive is in neither
    partition. *)
Theorem empty_sampling_is_skipped (self : DXFProcessor)
  (pre post : list Entity) (e : Entity) :
  recognized e = true -> get_entity_points e = [] ->
  (forall c m,
     is_phantom_entity fmt2f e (get_entity_points e) c m =
     (true, "Sin puntos válidos")) /\
  snd (process_entities fmt2f self (pre ++ e :: post)) =
  count_one_more (snd (process_entities fmt2f self (pre ++ post))).
Proof.
  intros _ He. split; [intros c m; rewrite He; reflexivity|].
  unfold process_entities.
  rewrite (get_design_statistics_skip pre post e He).
  destruct (get_design_statistics (pre ++ post)) as [c m].
  rewrite (process_loop_skip c m e post (kept_empty e He)).
  destruct (process_loop fmt2f c m (pre ++ post) (mkDXFProcessor [] []))
    as [self1 [msg|]]; [reflexivity|].
  cbn [snd count_one_more statistics Stats.total_entities
       Stats.valid_entities Stats.phantom_entities Stats.design_center
       Stats.max_design_dimension bounding_box cut_length entities_valid
       entities_phantom].
  rewrite !length_app. cbn [List.length]. rewrite Nat.add_succ_r.
  reflexivity.
Qed.

(** One iteration on a kept entity: it raises exactly when the layer cannot
    be read, and otherwise appends one record to the list the verdict
    selects. *)
Lemma process_entity_kept (c : Point) (m : R) (self : DXFProcessor)
  (e : Entity) :
  kept e = true ->
  let pts := get_entity_points e in
  let verdict := is_phantom_entity fmt2f e pts c m in
  process_entity fmt2f c m self e =
  match dxf_layer e with
  | Raises msg => (self, Some msg)
  | Val l =>
      if fst verdict then
        (mkDXFProcessor
           (valid_entities self)
           (phantom_entities self ++
            [mkProcessedEntity (dxftype e) pts (sampled_length e) l false
                               (Some (snd verdict))]), None)
      else
        (mkDXFProcessor
           (valid_entities self ++
            [mkProcessedEntity (dxftype e) pts (sampled_length e) l true None])
           (phantom_entities self), None)
  end.
Proof.
  unfold kept, process_entity, sampled_length. intros Hk.
  apply andb_true_iff in Hk. destruct Hk as [Hr Hp]. rewrite Hr.
  cbn [negb]. destruct (get_entity_points e) as [|p pts]; [discriminate|].
  cbv zeta. destruct (is_phantom_entity fmt2f e (p :: pts) c m) as [[|] reason];
    destruct (dxf_layer e); reflexivity.
Qed.

Lemma process_loop_invariant (c : Point) (m : R) (es : list Entity) :
  let phantom e :=
    fst (is_phantom_entity fmt2f e (get_entity_points e) c m) in
  forall self self',
    process_loop fmt2f c m es self = (self', None) ->
    map length (valid_entities self') =
    (map length (valid_entities self) ++
     map sampled_length (filter (fun e => kept e && negb (phantom e)) es))%list
    /\
    map points (valid_entities self') =
    (map points (valid_entities self) ++
     map get_entity_points
         (filter (fun e => kept e && negb (phantom e)) es))%list /\
    map points (phantom_entities self') =
    (map points (phantom_entities self) ++
     map get_entity_points (filter (fun e => kept e && phantom e) es))%list /\
    (List.length (valid_entities self') + List.length (phantom_entities self') =
     List.length (valid_entities self) + List.length (phantom_entities self) +
     List.length (filter kept es))%nat.
Proof.
  intros phantom.
  induction es as [|e es IH]; intros self self' H.
  - cbn [process_loop] in H. injection H as <-.
    cbn [filter map List.length]. rewrite !app_nil_r.
    repeat (split; [reflexivity|]). lia.
  - cbn [process_loop filter] in H |- *.
    destruct (kept e) eqn:Hk.
    + rewrite (process_entity_kept c m self e Hk) in H. cbv zeta in H.
      destruct (dxf_layer e) as [l|msg]; [|discriminate].
      cbn [andb]. fold (phantom e) in H.
      destruct (phantom e); apply IH in H;
        destruct H as (Hlen & Hvalid & Hphantom & Hcount);
        cbn [valid_entities phantom_entities negb] in Hlen, Hvalid, Hphantom,
          Hcount |- *;
        rewrite Hlen, Hvalid, Hphantom, Hcount;
        rewrite ?map_app, ?length_app, <- ?app_assoc;
        cbn [map app List.length points length];
        repeat (split; [reflexivity|]); lia.
    + rewrite (process_entity_skip c m self e Hk) in H. cbn [andb].
      apply IH. exact H.
Qed.

Lemma classified_valid_unfold (es : list Entity) (c : Point) (m : R) :
  get_design_statistics es = (c, m) ->
  forall l,
    filter (classified_valid fmt2f es) l =
    filter (fun e => kept e &&
              negb (fst (is_phantom_entity fmt2f e (get_entity_points e) c m)))
           l.
Proof.
  intros H l. apply filter_ext. intros e. unfold classified_valid.
  rewrite H. reflexivity.
Qed.

Lemma classified_phantom_unfold (es : list Entity) (c : Point) (m : R) :
  get_design_statistics es = (c, m) ->
  forall l,
    filter (classified_phantom fmt2f es) l =
    filter (fun e => kept e &&
              fst (is_phantom_entity fmt2f e (get_entity_points e) c m)) l.
Proof.
  intros H l. apply filter_ext. intros e. unfold classified_phantom.
  rewrite H. reflexivity.
Qed.

(** What a successful run reports, in terms of the loop's final lists. *)
Lemma process_entities_success (self : DXFProcessor) (es : list Entity)
  (r : AnalysisResult) :
  snd (process_entities fmt2f self es) = Success r ->
  exists c m self1,
    get_design_statistics es = (c, m) /\
    process_loop fmt2f c m es (mkDXFProcessor [] []) = (self1, None) /\
    r = mkAnalysisResult
          (Stats.mk (List.length es) (List.length (valid_entities self1))
                    (List.length (phantom_entities self1)) c m)
          (calculate_bounding_box (valid_entities self1))
          (mkCutLength
             (round (sum (map length (valid_entities self1))) 2)
             (round (sum (map length (valid_entities self1)) / 1000) 3))
          (valid_entities self1) (phantom_entities self1).
Proof.
  unfold process_entities. destruct (get_design_statistics es) as [c m].
  destruct (process_loop fmt2f c m es (mkDXFProcessor [] []))
    as [self1 [msg|]] eqn:Hloop; cbn [snd]; intros H; [discriminate|].
  injection H as <-. exists c, m, self1.
  split; [reflexivity | split; [exact Hloop | reflexivity]].
Qed.

(** C7.  On a successful run [total_mm] is the sum of the lengths of the
    valid primitives (the kept entities the classifier does not call
    phantom), rounded to 2 decimals, and [total_m] is that same sum, not
    rounded, divided by 1000 and then rounded to 3 decimals; no phantom
    primitive enters the sum. *)
Theorem cut_length_totals (self : DXFProcessor) (es : list Entity)
  (r : AnalysisResult) :
  snd (process_entities fmt2f self es) = Success r ->
  map length (entities_valid r) =
  map sampled_length (filter (classified_valid fmt2f es) es) /\
  total_mm (cut_length r) = round (valid_length fmt2f es) 2 /\
  total_m (cut_length r) = round (valid_length fmt2f es / 1000) 3.
Proof.
  intros H. apply process_entities_success in H.
  destruct H as (c & m & self1 & Hstat & Hloop & ->).
  apply process_loop_invariant in Hloop. destruct Hloop as [Hlen _].
  cbn [valid_entities map app] in Hlen.
  rewrite <- (classified_valid_unfold es c m Hstat) in Hlen.
  unfold valid_length.
  cbn [entities_valid cut_length total_mm total_m].
  rewrite Hlen. repeat split.
Qed.

(** C10.  On a successful run [total_entities] is the number of input
    entities, while [valid_entities + phantom_entities] is the number of kept
    ones: the total is at least their sum, and strictly more as soon as the
    input has an entity of an unrecognized type or one whose sampling is
    empty.  The two partitions hold the samplings of the kept entities only,
    in input order: an entity that is not kept is in neither. *)
Theorem entity_counts (self : DXFProcessor) (es : list Entity)
  (r : AnalysisResult) :
  snd (process_entities fmt2f self es) = Success r ->
  let st := statistics r in
  Stats.total_entities st = List.length es /\
  Stats.valid_entities st = List.length (entities_valid r) /\
  Stats.phantom_entities st = List.length (entities_phantom r) /\
  map points (entities_valid r) =
  map get_entity_points (filter (classified_valid fmt2f es) es) /\
  map points (entities_phantom r) =
  map get_entity_points (filter (classified_phantom fmt2f es) es) /\
  (Stats.valid_entities st + Stats.phantom_entities st =
   List.length (filter kept es))%nat /\
  (Stats.valid_entities st + Stats.phantom_entities st <=
   Stats.total_entities st)%nat /\
  ((exists e, In e es /\ (recognized e = false \/ get_entity_points e = [])) ->
   (Stats.valid_entities st + Stats.phantom_entities st <
    Stats.total_entities st)%nat).
Proof.
  intros H. apply process_entities_success in H.
  destruct H as (c & m & self1 & Hstat & Hloop & ->).
  apply process_loop_invariant in Hloop.
  destruct Hloop as (_ & Hvalid & Hphantom & Hcount).
  cbn [valid_entities phantom_entities List.length Nat.add map app]
    in Hvalid, Hphantom, Hcount.
  rewrite <- (classified_valid_unfold es c m Hstat) in Hvalid.
  rewrite <- (classified_phantom_unfold es c m Hstat) in Hphantom.
  cbn [statistics Stats.total_entities Stats.valid_entities
       Stats.phantom_entities entities_valid entities_phantom].
  rewrite Hcount.
  repeat (split; [reflexivity|]).
  split; [exact Hvalid|]. split; [exact Hphantom|]. split; [reflexivity|].
  split; [apply filter_length_le|].
  intros (e & Hin & He).
  assert (Hk : kept e = false).
  { destruct He as [He|He]; [unfold kept; rewrite He; reflexivity|].
    apply kept_empty, He. }
  pose proof (filter_length kept es) as Hsplit.
  assert (Hpos : (0 < List.length (filter (fun x => negb (kept x)) es))%nat).
  { assert (Hin' : In e (filter (fun x => negb (kept x)) es)).
    { apply filter_In. split; [exact Hin | rewrite Hk; reflexivity]. }
    destruct (filter (fun x => negb (kept x)) es); [destruct Hin'|].
    cbn [List.length]. lia. }
  lia.
Qed.

(** C9 (as the code has it).  An input without any entity of a recognized
    type is analysed with success: the statistics are the fallback center
    [(0,0)] and dimension [1000], the bounding box is [(0,0,0,0)], both
    totals are [0], both partitions are empty and their counts are zero;
    [total_entities] is the number of input entities, which is zero only for
    the input without entities. *)
Theorem empty_design (self : DXFProcessor) (es : list Entity) :
  (forall e, In e es -> recognized e = false) ->
  snd (process_entities fmt2f self es) =
  Success
    (mkAnalysisResult
       (Stats.mk (List.length es) 0 0 (mkPoint 0 0) 1000)
       (mkBoundingBox 0 0 0 0) (mkCutLength 0 0) [] []).
Proof.
  intros H. unfold process_entities, get_design_statistics.
  rewrite (collect_points_unrecognized es H).
  cbv iota beta.
  rewrite (process_loop_unrecognized (mkPoint 0 0) 1000 es H).
  cbn [snd valid_entities phantom_entities map List.length
       calculate_bounding_box].
  unfold sum. cbn [fold_left].
  replace (0 / 1000) with 0 by (unfold Rdiv; rewrite Rmult_0_l; reflexivity).
  rewrite !round_zero. reflexivity.
Qed.

(** A kept entity whose layer cannot be read makes the whole run fail,
    whatever comes before and after it. *)
Lemma unreadable_layer_fails_run (self : DXFProcessor) (e : Entity)
  (msg : string) (pre post : list Entity) :
  kept e = true -> dxf_layer e = Raises msg ->
  exists msg', snd (process_entities fmt2f self (pre ++ e :: post)) =
               Failure msg'.
Proof.
  intros Hk Hl. unfold process_entities.
  destruct (get_design_statistics (pre ++ e :: post)) as [c m].
  assert (Hloop : forall self0, exists self1 msg',
             process_loop fmt2f c m (pre ++ e :: post) self0 =
             (self1, Some msg')).
  { induction pre as [|x pre IH]; intros self0; cbn [app process_loop].
    - rewrite (process_entity_kept c m self0 e Hk). cbv zeta. rewrite Hl.
      exists self0, msg. reflexivity.
    - destruct (process_entity fmt2f c m self0 x) as [self' [msg'|]].
      + exists self', msg'. reflexivity.
      + apply IH. }
  destruct (Hloop (mkDXFProcessor [] [])) as (self1 & msg' & ->).
  exists msg'. reflexivity.
Qed.

(** The run succeeds as soon as the layer of every kept entity can be read:
    nothing else in the loop raises past its own handler. *)
Lemma process_entities_succeeds (self : DXFProcessor) (es : list Entity) :
  (forall e, In e es -> kept e = true -> exists l, dxf_layer e = Val l) ->
  exists r, snd (process_entities fmt2f self es) = Success r.
Proof.
  intros H. unfold process_entities.
  destruct (get_design_statistics es) as [c m].
  assert (Hloop : forall self0, exists self1,
             process_loop fmt2f c m es self0 = (self1, None)).
  { induction es as [|e es IH]; intros self0; cbn [process_loop].
    - exists self0. reflexivity.
    - assert (IH' := IH (fun x Hx => H x (or_intror Hx))).
      destruct (kept e) eqn:Hk.
      + rewrite (process_entity_kept c m self0 e Hk). cbv zeta.
        destruct (H e (or_introl eq_refl) Hk) as [l ->].
        destruct (fst (is_phantom_entity fmt2f e (get_entity_points e) c m));
          apply IH'.
      + rewrite (process_entity_skip c m self0 e Hk). apply IH'. }
  destruct (Hloop (mkDXFProcessor [] [])) as [self1 ->].
  eexists. reflexivity.
Qed.

(** The call resets the two lists first: what it returns does not depend on
    what an earlier call left in the processor. *)
Lemma process_entities_resets (self self' : DXFProcessor) (es : list Entity) :
  process_entities fmt2f self es = process_entities fmt2f self' es.
Proof. reflexivity. Qed.

End PipelineProperties.

Section FailureIsolation.

Variable fmt2f : R -> string.

(** C8.  Whatever is raised while the rules of the classifier are evaluated
    (the read of the layer, or a [distance_to] that overflows) becomes a
    phantom verdict that quotes the exception, and is not propagated.  For an
    entity as the reader delivers it, its layer readable, the loop then
    records the entity as a phantom and goes on with the remaining
    entities; and a run over entities with readable layers returns a result
    in which every kept entity has its record, however many of them make the
    rules raise. *)
Theorem classification_failure_is_isolated (e : Entity) (pts : list Point)
  (c : Point) (m : R) (msg : string) :
  pts <> [] -> phantom_rules fmt2f e pts c m = Raises msg ->
  is_phantom_entity fmt2f e pts c m =
  (true, "Error procesando entidad: " ++ msg) /\
  (forall l self rest,
     recognized e = true -> get_entity_points e = pts -> dxf_layer e = Val l ->
     process_loop fmt2f c m (e :: rest) self =
     process_loop fmt2f c m rest
       (mkDXFProcessor
          (valid_entities self)
          (phantom_entities self ++
           [mkProcessedEntity (dxftype e) pts (calculate_entity_length e pts)
                              l false
                              (Some ("Error procesando entidad: " ++ msg))]))) /\
  (forall self pre rest,
     recognized e = true -> get_entity_points e = pts ->
     (forall x, In x (pre ++ e :: rest) -> kept x = true ->
                exists l, dxf_layer x = Val l) ->
     exists r,
       snd (process_entities fmt2f self (pre ++ e :: rest)) = Success r /\
       (Stats.valid_entities (statistics r) +
        Stats.phantom_entities (statistics r) =
        List.length (filter kept (pre ++ e :: rest)))%nat).
Proof.
  intros Hne Hraise.
  assert (Hverdict : is_phantom_entity fmt2f e pts c m =
                     (true, "Error procesando entidad: " ++ msg)).
  { destruct pts as [|p rest]; [congruence|].
    apply is_phantom_entity_on_error, Hraise. }
  split; [exact Hverdict|]. split.
  - intros l self rest Hrec Hpts Hl.
    assert (Hk : kept e = true).
    { unfold kept. rewrite Hrec, Hpts. destruct pts; [congruence | reflexivity]. }
    cbn [process_loop].
    rewrite (process_entity_kept fmt2f c m self e Hk). cbv zeta.
    unfold sampled_length. rewrite Hpts, Hl, Hverdict. reflexivity.
  - intros self pre rest Hrec Hpts Hlayers.
    destruct (process_entities_succeeds fmt2f self (pre ++ e :: rest) Hlayers)
      as [r Hr].
    exists r. split; [exact Hr|].
    apply process_entities_success in Hr.
    destruct Hr as (c' & m' & self1 & _ & Hloop & ->).
    apply process_loop_invariant in Hloop.
    destruct Hloop as (_ & _ & _ & Hcount).
    cbn [valid_entities phantom_entities List.length Nat.add] in Hcount.
    exact Hcount.
Qed.

End FailureIsolation.

Section Overlap.

Variable fmt2f : R -> string.

Lemma step_on_target (self : DXFProcessor) (call : Call) :
  target (snd (step_on fmt2f self call)) = target call /\
  all_entities (snd (step_on fmt2f self call)) = all_entities call.
Proof.
  unfold step_on. destruct (phase call) as [|c m [|e rest]|resp].
  - destruct (get_design_statistics (all_entities call)). split; reflexivity.
  - split; reflexivity.
  - destruct (process_entity fmt2f c m self e) as [self' [msg|]];
      split; reflexivity.
  - split; reflexivity.
Qed.

Lemma alone_returned (n : nat) (self : DXFProcessor) (call : Call)
  (resp : Response) :
  phase call = Returned resp -> alone fmt2f n self call = (self, call).
Proof.
  intros H. revert self. induction n as [|n IH]; intros self; [reflexivity|].
  cbn [alone]. unfold step_on. rewrite H. apply IH.
Qed.

(** The loop of a call left alone is [process_loop]. *)
Lemma alone_loop (k : nat) (all : list Entity) (c : Point) (m : R)
  (rest : list Entity) :
  forall n self,
    (List.length rest + 1 <= n)%nat ->
    phase (snd (alone fmt2f n self (mkCall k all (Looping c m rest)))) =
    Returned
      match process_loop fmt2f c m rest self with
      | (self1, None) => Success (report all c m self1)
      | (_, Some e) => Failure e
      end.
Proof.
  induction rest as [|e rest IH]; intros n self Hn.
  - destruct n as [|n]; [cbn in Hn; lia|].
    cbn [alone step_on phase target all_entities process_loop].
    rewrite alone_returned with (resp := Success (report all c m self))
      by reflexivity.
    reflexivity.
  - destruct n as [|n]; [cbn in Hn; lia|].
    cbn [alone step_on phase target all_entities process_loop].
    destruct (process_entity fmt2f c m self e) as [self' [msg|]].
    + rewrite alone_returned with (resp := Failure msg) by reflexivity.
      reflexivity.
    + apply IH. cbn [List.length] in Hn. lia.
Qed.

(** A call left alone returns what [process_dxf_file] returns. *)
Lemma alone_response (n : nat) (self : DXFProcessor) (call : Call) :
  phase call = Entered -> (steps_needed call <= n)%nat ->
  phase (snd (alone fmt2f n self call)) =
  Returned (snd (process_entities fmt2f self (all_entities call))).
Proof.
  intros Hp Hn. unfold steps_needed in Hn.
  destruct n as [|n]; [lia|].
  cbn [alone]. unfold step_on at 1. rewrite Hp.
  unfold process_entities.
  destruct (get_design_statistics (all_entities call)) as [c m].
  rewrite alone_loop by lia.
  destruct (process_loop fmt2f c m (all_entities call) (mkDXFProcessor [] []))
    as [self1 [msg|]]; reflexivity.
Qed.

Lemma update_same (h : Heap) (k : nat) (v : DXFProcessor) : update h k v k = v.
Proof. unfold update. rewrite Nat.eqb_refl. reflexivity. Qed.

Lemma update_other (h : Heap) (k j : nat) (v : DXFProcessor) :
  j <> k -> update h k v j = h j.
Proof.
  intros H. unfold update. apply Nat.eqb_neq in H. rewrite H. reflexivity.
Qed.

(** On two different objects each call goes its own way, whatever the
    schedule. *)
Lemma interleave_separate (schedule : list bool) :
  forall h a b,
    target a <> target b ->
    let '(h', a', b') := interleave fmt2f schedule h a b in
    (h' (target a), a') = alone fmt2f (turns true schedule) (h (target a)) a /\
    (h' (target b), b') = alone fmt2f (turns false schedule) (h (target b)) b.
Proof.
  induction schedule as [|[|] schedule IH]; intros h a b Hab.
  - split; reflexivity.
  - cbn [interleave]. unfold step.
    destruct (step_on fmt2f (h (target a)) a) as [v a1] eqn:Hs.
    pose proof (step_on_target (h (target a)) a) as [Ht _].
    rewrite Hs in Ht. cbn [snd] in Ht.
    specialize (IH (update h (target a) v) a1 b).
    rewrite Ht in IH. specialize (IH Hab).
    destruct (interleave fmt2f schedule (update h (target a) v) a1 b)
      as [[h' a'] b'].
    rewrite update_same, update_other in IH by (intros H; apply Hab; auto).
    change (turns true (true :: schedule)) with (S (turns true schedule)).
    change (turns false (true :: schedule)) with (turns false schedule).
    cbn [alone]. rewrite Hs. exact IH.
  - cbn [interleave]. unfold step.
    destruct (step_on fmt2f (h (target b)) b) as [v b1] eqn:Hs.
    pose proof (step_on_target (h (target b)) b) as [Ht _].
    rewrite Hs in Ht. cbn [snd] in Ht.
    specialize (IH (update h (target b) v) a b1).
    rewrite Ht in IH. specialize (IH Hab).
    destruct (interleave fmt2f schedule (update h (target b) v) a b1)
      as [[h' a'] b'].
    rewrite update_same, update_other in IH by exact Hab.
    change (turns false (false :: schedule)) with (S (turns false schedule)).
    change (turns true (false :: schedule)) with (turns true schedule).
    cbn [alone]. rewrite Hs. exact IH.
Qed.

(** A stretch of the schedule given to the first call only. *)
Lemma interleave_first (n : nat) :
  forall h a b,
    exists h',
      interleave fmt2f (repeat true n) h a b =
      (h', snd (alone fmt2f n (h (target a)) a), b).
Proof.
  induction n as [|n IH]; intros h a b; [exists h; reflexivity|].
  cbn [repeat interleave alone]. unfold step.
  destruct (step_on fmt2f (h (target a)) a) as [v a1] eqn:Hs.
  pose proof (step_on_target (h (target a)) a) as [Ht _].
  rewrite Hs in Ht. cbn [snd] in Ht.
  destruct (IH (update h (target a) v) a1 b) as [h' Hh'].
  rewrite Ht, update_same in Hh'. exists h'. exact Hh'.
Qed.

Lemma interleave_second (k : nat) :
  forall h a b,
    exists h',
      interleave fmt2f (repeat false k) h a b =
      (h', a, snd (alone fmt2f k (h (target b)) b)).
Proof.
  induction k as [|k IH]; intros h a b; [exists h; reflexivity|].
  cbn [repeat interleave alone]. unfold step.
  destruct (step_on fmt2f (h (target b)) b) as [v b1] eqn:Hs.
  pose proof (step_on_target (h (target b)) b) as [Ht _].
  rewrite Hs in Ht. cbn [snd] in Ht.
  destruct (IH (update h (target b) v) a b1) as [h' Hh'].
  rewrite Ht, update_same in Hh'. exists h'. exact Hh'.
Qed.

Lemma interleave_app (s1 s2 : list bool) :
  forall h a b,
    interleave fmt2f (s1 ++ s2) h a b =
    let '(h1, a1, b1) := interleave fmt2f s1 h a b in
    interleave fmt2f s2 h1 a1 b1.
Proof.
  induction s1 as [|[|] s1 IH]; intros h a b; [reflexivity| |];
    cbn [app interleave].
  - destruct (step fmt2f h a) as [h' a']. apply IH.
  - destruct (step fmt2f h b) as [h' b']. apply IH.
Qed.

Lemma turns_repeat (n k : nat) :
  turns true (repeat true n ++ repeat false k) = n /\
  turns false (repeat true n ++ repeat false k) = k.
Proof.
  unfold turns. rewrite !filter_app, !length_app.
  assert (H1 : forall w j, filter (Bool.eqb w) (repeat w j) = repeat w j).
  { intros w j. induction j as [|j IH]; [reflexivity|].
    cbn [repeat filter]. rewrite Bool.eqb_reflx, IH. reflexivity. }
  assert (H2 : forall w j, filter (Bool.eqb w) (repeat (negb w) j) = []).
  { intros w j. induction j as [|j IH]; [reflexivity|].
    cbn [repeat filter]. destruct w; cbn [negb Bool.eqb]; exact IH. }
  rewrite (H1 true n), (H1 false k).
  pose proof (H2 true k) as Hk. pose proof (H2 false n) as Hn.
  cbn [negb] in Hk, Hn. rewrite Hk, Hn. cbn [List.length].
  rewrite !repeat_length. split; lia.
Qed.

(** C2 (as the code has it).  Two calls of the analysis on independent inputs
    do not interfere when they are made on two different processor objects,
    under any schedule of their steps, nor when they are made on the same
    object one after the other: each call then returns what it returns when
    run alone, whatever the processor held before.  The two lists of the
    processor are the only state a call shares. *)
Theorem calls_do_not_interfere (h : Heap) (a b : Call) (schedule : list bool) :
  phase a = Entered -> phase b = Entered ->
  target a <> target b \/
  (exists n k, schedule = repeat true n ++ repeat false k)%list ->
  (steps_needed a <= turns true schedule)%nat ->
  (steps_needed b <= turns false schedule)%nat ->
  let '(_, a', b') := interleave fmt2f schedule h a b in
  phase a' =
  Returned (snd (process_entities fmt2f (h (target a)) (all_entities a))) /\
  phase b' =
  Returned (snd (process_entities fmt2f (h (target b)) (all_entities b))).
Proof.
  intros Ha Hb [Hsep|(n & k & ->)] Hna Hnb.
  - pose proof (interleave_separate schedule h a b Hsep) as H.
    destruct (interleave fmt2f schedule h a b) as [[h' a'] b'].
    destruct H as [H1 H2].
    pose proof (alone_response _ (h (target a)) a Ha Hna) as Ra.
    pose proof (alone_response _ (h (target b)) b Hb Hnb) as Rb.
    rewrite <- H1 in Ra. rewrite <- H2 in Rb. split; assumption.
  - destruct (turns_repeat n k) as [Tn Tk]. rewrite Tn in Hna. rewrite Tk in Hnb.
    rewrite interleave_app.
    destruct (interleave_first n h a b) as [h1 ->].
    destruct (interleave_second k h1 (snd (alone fmt2f n (h (target a)) a)) b)
      as [h2 ->].
    split.
    + apply alone_response; assumption.
    + rewrite (alone_response _ (h1 (target b)) b Hb Hnb). reflexivity.
Qed.

End Overlap.

(** * The properties on concrete designs *)

Lemma Rltb_false (x y : R) : ~ x < y -> Rltb x y = false.
Proof.
  unfold Rltb. intros H. destruct (Rlt_dec x y); [contradiction | reflexivity].
Qed.

Lemma sample_statistics :
  get_design_statistics sample_design = (mkPoint (3 / 2) (3 / 2), 1).
Proof.
  unfold get_design_statistics.
  change (collect_points sample_design)
    with [mkPoint 1 1; mkPoint 2 2; mkPoint 1 1; mkPoint 2 2].
  cbn [map px py List.length py_min py_max fold_left sum].
  assert (Hmin : Rmin (Rmin (Rmin 1 2) 1) 2 = 1).
  { unfold Rmin. repeat destruct (Rle_dec _ _); lra. }
  assert (Hmax : Rmax (Rmax (Rmax 1 2) 1) 2 = 2).
  { unfold Rmax. repeat destruct (Rle_dec _ _); lra. }
  rewrite Hmin, Hmax.
  assert (Hdim : Rmax (2 - 1) (2 - 1) = 1).
  { unfold Rmax. destruct (Rle_dec _ _); lra. }
  rewrite Hdim.
  replace ((0 + 1 + 2 + 1 + 2) / INR 4) with (3 / 2) by (simpl; lra).
  reflexivity.
Qed.

Lemma sample_line_length_bound :
  0 <= distance_to (mkPoint 1 1) (mkPoint 2 2) <= 2.
Proof.
  unfold distance_to. cbn [px py]. split; [apply sqrt_pos|].
  apply Rle_trans with (sqrt (2 ^ 2)); [apply sqrt_le_1_alt; lra|].
  rewrite sqrt_pow2 by lra. lra.
Qed.

Lemma overflow_threshold_large : 16 <= overflow_threshold.
Proof.
  unfold overflow_threshold.
  change 1024%nat with (970 + 54)%nat. rewrite pow_add.
  assert (H970 : 1 <= 2 ^ 970) by (apply pow_R1_Rle; lra).
  assert (H54 : 2 ^ 5 <= 2 ^ 54) by (apply Rle_pow; [lra | lia]).
  replace (2 ^ 5) with 32 in H54 by (simpl; lra).
  replace (2 ^ 970 * 2 ^ 54 - 2 ^ 970) with (2 ^ 970 * (2 ^ 54 - 1)) by ring.
  apply Rle_trans with (1 * (2 ^ 54 - 1)); [lra|].
  apply Rmult_le_compat_r; lra.
Qed.

Lemma Rleb_false (x y : R) : y < x -> Rleb x y = false.
Proof.
  unfold Rleb. intros H. destruct (Rle_dec x y); [lra | reflexivity].
Qed.

Lemma Rleb_true (x y : R) : x <= y -> Rleb x y = true.
Proof.
  unfold Rleb. intros H. destruct (Rle_dec x y); [reflexivity | contradiction].
Qed.

Lemma pow2_in_range (x : R) :
  x ^ 2 < overflow_threshold -> pow2 x = Val (x ^ 2).
Proof.
  intros H. unfold pow2. rewrite (Rleb_false _ _ H). reflexivity.
Qed.

(** Between points that are close the call returns the distance. *)
Lemma distance_to_call_in_range (a b : Point) :
  (px a - px b) ^ 2 < overflow_threshold ->
  (py a - py b) ^ 2 < overflow_threshold ->
  distance_to_call a b = Val (distance_to a b).
Proof.
  intros Hx Hy. unfold distance_to_call.
  rewrite (pow2_in_range _ Hx), (pow2_in_range _ Hy). reflexivity.
Qed.

Lemma sample_line_call :
  distance_to_call (mkPoint 1 1) (mkPoint 2 2) =
  Val (distance_to (mkPoint 1 1) (mkPoint 2 2)).
Proof.
  pose proof overflow_threshold_large.
  apply distance_to_call_in_range; cbn [px py]; lra.
Qed.

Lemma cut_line_is_valid :
  is_phantom_entity fmt_sample cut_line [mkPoint 1 1; mkPoint 2 2]
                    (mkPoint (3 / 2) (3 / 2)) 1 = (false, "Entidad válida").
Proof.
  unfold is_phantom_entity, phantom_rules.
  cbn [cut_line line_entity dxf_layer bind].
  change (member (upper "CUT") phantom_layers) with false. cbv iota.
  change (has_invisible _) with false. cbv iota.
  change (dxftype _ =? "LINE") with true. cbv iota.
  assert (Hone : Rabs 1 = 1) by (apply Rabs_pos_eq; lra).
  assert (Htwo : Rabs 2 = 2) by (apply Rabs_pos_eq; lra).
  unfold line_rules, near_origin, extreme_rule, extreme, Rgtb. cbn [px py find].
  rewrite Hone, Htwo.
  rewrite (Rltb_false 1 0.001) by lra. rewrite (Rltb_false 2 0.001) by lra.
  cbn [andb orb].
  rewrite sample_line_call. cbn [bind].
  rewrite (Rltb_false (1 * 10)) by (pose proof sample_line_length_bound; lra).
  assert (Hmid : distance_to (mkPoint ((1 + 2) / 2) ((1 + 2) / 2))
                             (mkPoint (3 / 2) (3 / 2)) = 0).
  { unfold distance_to. cbn [px py].
    replace (((1 + 2) / 2 - 3 / 2) ^ 2 + ((1 + 2) / 2 - 3 / 2) ^ 2) with 0
      by lra.
    apply sqrt_0. }
  rewrite distance_to_call_in_range
    by (pose proof overflow_threshold_large; cbn [px py]; lra).
  cbn [bind]. rewrite Hmid. rewrite (Rltb_false (1 * 5)) by lra.
  rewrite (Rltb_false 50000 1) by lra. rewrite (Rltb_false 50000 2) by lra.
  reflexivity.
Qed.

Lemma sample_line_length (e : Entity) :
  dxftype e = "LINE" -> get_entity_points e = [mkPoint 1 1; mkPoint 2 2] ->
  sampled_length e = distance_to (mkPoint 1 1) (mkPoint 2 2).
Proof.
  intros Ht Hp. unfold sampled_length, calculate_entity_length.
  rewrite Ht, Hp. cbn [String.eqb Ascii.eqb Bool.eqb].
  rewrite sample_line_call. reflexivity.
Qed.

(** The run on the sample design. *)
Lemma sample_run :
  snd (process_entities fmt_sample fresh sample_design) = Success sample_result.
Proof.
  unfold process_entities. rewrite sample_statistics.
  unfold sample_design. cbn [process_loop].
  rewrite (process_entity_skip fmt_sample _ _ _ no_text eq_refl).
  rewrite (process_entity_kept fmt_sample _ _ _ cut_line eq_refl).
  cbv zeta.
  change (get_entity_points cut_line) with [mkPoint 1 1; mkPoint 2 2].
  rewrite cut_line_is_valid.
  cbn [dxf_layer cut_line line_entity fst snd valid_entities phantom_entities
       app].
  rewrite (process_entity_skip fmt_sample _ _ _ unreadable_line eq_refl).
  rewrite (process_entity_kept fmt_sample _ _ _ defpoints_line eq_refl).
  rewrite (sample_line_length cut_line eq_refl eq_refl).
  rewrite (sample_line_length defpoints_line eq_refl eq_refl).
  reflexivity.
Qed.

Lemma totals_of_nothing :
  mkCutLength (round (sum []) 2) (round (sum [] / 1000) 3) = mkCutLength 0 0.
Proof.
  unfold sum. cbn [fold_left].
  replace (0 / 1000) with 0 by (unfold Rdiv; rewrite Rmult_0_l; reflexivity).
  rewrite !round_zero. reflexivity.
Qed.

Lemma within_origin_zero : within_origin (mkPoint 0 0).
Proof.
  unfold within_origin. cbn [px py]. rewrite Rabs_R0. lra.
Qed.

(** C1, the claim as stated fails: a LINE whose endpoints cannot be read is
    of a recognized type and is sampled as no point, and the run on it
    succeeds with an empty phantom partition (and an empty valid one). *)
Lemma empty_sampling_counterexample :
  recognized unreadable_line = true /\
  get_entity_points unreadable_line = [] /\
  snd (process_entities fmt_sample fresh [unreadable_line]) =
  Success
    (mkAnalysisResult (Stats.mk 1 0 0 (mkPoint 0 0) 1000)
                      (mkBoundingBox 0 0 0 0) (mkCutLength 0 0) [] []).
Proof.
  split; [reflexivity|]. split; [reflexivity|].
  change (snd (process_entities fmt_sample fresh [unreadable_line]))
    with (Success
            (mkAnalysisResult
               (Stats.mk 1 0 0 (mkPoint 0 0) 1000) (mkBoundingBox 0 0 0 0)
               (mkCutLength (round (sum []) 2) (round (sum [] / 1000) 3))
               [] [])).
  rewrite totals_of_nothing. reflexivity.
Qed.

Lemma empty_sampling_is_skipped_witness :
  is_phantom_entity fmt_sample unreadable_line
                    (get_entity_points unreadable_line) origin 1000 =
  (true, "Sin puntos válidos") /\
  snd (process_entities fmt_sample fresh
                        ([no_text] ++ unreadable_line :: [cut_line])) =
  count_one_more
    (snd (process_entities fmt_sample fresh ([no_text] ++ [cut_line]))).
Proof.
  destruct (empty_sampling_is_skipped fmt_sample fresh [no_text] [cut_line]
              unreadable_line eq_refl eq_refl) as [Hverdict Hrun].
  split; [apply Hverdict | exact Hrun].
Defined.

(** C3, the claim as stated fails: a LINE from the origin on the layer
    DEFPOINTS is a phantom, yet its reason is the one of the layer rule and
    does not mention the origin. *)
Lemma line_to_origin_counterexample :
  within_origin (mkPoint 0 0) /\
  get_entity_points origin_line_on_defpoints = [mkPoint 0 0; mkPoint 10 0] /\
  is_phantom_entity fmt_sample origin_line_on_defpoints
                    (get_entity_points origin_line_on_defpoints)
                    (mkPoint 5 0) 10 =
  (true, "Capa fantasma: DEFPOINTS") /\
  mentions_origin "Capa fantasma: DEFPOINTS" = false.
Proof.
  split; [apply within_origin_zero|]. repeat split.
Qed.

Lemma line_to_origin_verdict_witness :
  is_phantom_entity fmt_sample origin_line (get_entity_points origin_line)
                    (mkPoint 5 0) 10 =
  (true, "Línea conecta con origen (0,0)").
Proof.
  destruct (line_to_origin_verdict fmt_sample origin_line (mkPoint 0 0)
              (mkPoint 10 0) (mkPoint 5 0) 10 eq_refl eq_refl eq_refl
              (or_introl within_origin_zero)) as [_ [Hfst Hsnd]].
  destruct (Hsnd "CUT" eq_refl eq_refl eq_refl) as [Hreason _].
  rewrite (surjective_pairing (is_phantom_entity _ _ _ _ _)).
  rewrite Hfst, Hreason. reflexivity.
Defined.

Lemma phantom_layer_verdict_witness :
  is_phantom_entity fmt_sample defpoints_line [mkPoint 1 1; mkPoint 2 2]
                    (mkPoint (3 / 2) (3 / 2)) 1 =
  (true, "Capa fantasma: DEFPOINTS").
Proof.
  destruct (phantom_layer_verdict fmt_sample defpoints_line
              [mkPoint 1 1; mkPoint 2 2] (mkPoint (3 / 2) (3 / 2)) 1
              "defpoints" eq_refl eq_refl) as [Hfst Hsnd].
  destruct (Hsnd ltac:(discriminate)) as [Hreason _].
  rewrite (surjective_pairing (is_phantom_entity _ _ _ _ _)).
  rewrite Hfst, Hreason. reflexivity.
Defined.

Lemma cut_length_totals_witness :
  total_mm (cut_length sample_result) =
  round (valid_length fmt_sample sample_design) 2 /\
  total_m (cut_length sample_result) =
  round (valid_length fmt_sample sample_design / 1000) 3.
Proof.
  destruct (cut_length_totals fmt_sample fresh sample_design sample_result
              sample_run) as [_ Htotals].
  exact Htotals.
Defined.

Lemma entity_counts_witness :
  let st := statistics sample_result in
  (Stats.valid_entities st + Stats.phantom_entities st = 2)%nat /\
  Stats.total_entities st = 4%nat /\
  (Stats.valid_entities st + Stats.phantom_entities st <
   Stats.total_entities st)%nat.
Proof.
  destruct (entity_counts fmt_sample fresh sample_design sample_result
              sample_run) as (Htotal & _ & _ & _ & _ & Hkept & _ & Hlt).
  split; [exact Hkept|]. split; [exact Htotal|].
  apply Hlt. exists no_text. split; [left; reflexivity | left; reflexivity].
Defined.

Lemma only_text_unrecognized :
  forall e, In e [no_text] -> recognized e = false.
Proof.
  intros e [<-|[]]. reflexivity.
Qed.

(** C9, the claim as stated fails: a design made of one TEXT has no recognized
    primitive, and the run reports [total_entities = 1]. *)
Lemma empty_design_counterexample :
  (forall e, In e [no_text] -> recognized e = false) /\
  exists r,
    snd (process_entities fmt_sample fresh [no_text]) = Success r /\
    Stats.total_entities (statistics r) = 1%nat /\
    Stats.total_entities (statistics r) <> 0%nat.
Proof.
  split; [exact only_text_unrecognized|].
  eexists. split; [reflexivity|]. split; [reflexivity | discriminate].
Qed.

Lemma empty_design_witness :
  snd (process_entities fmt_sample fresh [no_text]) =
  Success
    (mkAnalysisResult (Stats.mk 1 0 0 (mkPoint 0 0) 1000)
                      (mkBoundingBox 0 0 0 0) (mkCutLength 0 0) [] []).
Proof.
  exact (empty_design fmt_sample fresh [no_text] only_text_unrecognized).
Defined.

Lemma far_x_large : 1 <= far_x /\ overflow_threshold <= (1 - far_x) ^ 2.
Proof.
  unfold far_x.
  assert (H599 : 1 <= 2 ^ 599) by (apply pow_R1_Rle; lra).
  assert (H600 : 2 ^ 600 = 2 * 2 ^ 599) by reflexivity.
  split; [lra|].
  assert (Hsq : (2 ^ 599) ^ 2 <= (1 - 2 ^ 600) ^ 2).
  { replace ((1 - 2 ^ 600) ^ 2) with ((2 ^ 600 - 1) ^ 2) by ring.
    apply pow_incr. lra. }
  assert (Hbig : 2 ^ 1024 <= (2 ^ 599) ^ 2).
  { rewrite <- pow_mult. apply Rle_pow; [lra | lia]. }
  assert (H970 : 0 < 2 ^ 970) by (apply pow_lt; lra).
  unfold overflow_threshold. lra.
Qed.

Lemma overflowing_line_raises (c : Point) (m : R) :
  phantom_rules fmt_sample overflowing_line
                [mkPoint 1 1; mkPoint far_x 1] c m = Raises overflow_error.
Proof.
  destruct far_x_large as [H1 H2].
  unfold phantom_rules. cbn [overflowing_line line_entity dxf_layer bind].
  change (member (upper "CUT") phantom_layers) with false. cbv iota.
  change (has_invisible _) with false. cbv iota.
  change (dxftype _ =? "LINE") with true. cbv iota.
  unfold line_rules, near_origin. cbn [px py].
  rewrite (Rltb_false (Rabs 1)) by (rewrite Rabs_pos_eq; lra).
  rewrite (Rltb_false (Rabs far_x)) by (rewrite Rabs_pos_eq; lra).
  cbn [andb orb]. unfold distance_to_call, pow2. cbn [px py].
  rewrite (Rleb_true _ _ H2). reflexivity.
Qed.

Lemma classification_failure_is_isolated_witness :
  is_phantom_entity fmt_sample overflowing_line
                    [mkPoint 1 1; mkPoint far_x 1] origin 1000 =
  (true, "Error procesando entidad: (34, 'Numerical result out of range')") /\
  exists r,
    snd (process_entities fmt_sample fresh [overflowing_line; cut_line]) =
    Success r /\
    (Stats.valid_entities (statistics r) +
     Stats.phantom_entities (statistics r) = 2)%nat.
Proof.
  destruct (classification_failure_is_isolated fmt_sample overflowing_line
              [mkPoint 1 1; mkPoint far_x 1] origin 1000 overflow_error
              ltac:(discriminate) (overflowing_line_raises origin 1000))
    as (Hverdict & _ & Hrun).
  split; [exact Hverdict|].
  apply (Hrun fresh [] [cut_line] eq_refl eq_refl).
  intros x [<-|[<-|[]]] _; eexists; reflexivity.
Defined.

(** C2, the claim as stated fails: two calls on the same processor whose
    loops overlap share its lists.  The first call, on one line, returns two
    phantom records, the first of which is the line of the other call; run
    alone it returns one. *)
Lemma overlapping_calls_counterexample :
  let '(_, a', _) :=
    interleave fmt_sample overlap_schedule fresh_heap
               (enter 0 [defpoints_line]) (enter 0 [origin_line_on_defpoints]) in
  (exists r,
     phase a' = Returned (Success r) /\
     map points (entities_phantom r) =
     [[mkPoint 0 0; mkPoint 10 0]; [mkPoint 1 1; mkPoint 2 2]]) /\
  (exists r0,
     snd (process_entities fmt_sample fresh [defpoints_line]) = Success r0 /\
     map points (entities_phantom r0) = [[mkPoint 1 1; mkPoint 2 2]]).
Proof.
  split; eexists; (split; [reflexivity|]); reflexivity.
Qed.

Lemma separate_processors :
  target (enter 0 [defpoints_line]) <>
  target (enter 1 [origin_line_on_defpoints]).
Proof. discriminate. Qed.

Lemma calls_do_not_interfere_witness :
  let '(_, a', b') :=
    interleave fmt_sample overlap_schedule fresh_heap
               (enter 0 [defpoints_line]) (enter 1 [origin_line_on_defpoints]) in
  phase a' =
  Returned (snd (process_entities fmt_sample (fresh_heap 0%nat) [defpoints_line])) /\
  phase b' =
  Returned (snd (process_entities fmt_sample (fresh_heap 1%nat)
                                  [origin_line_on_defpoints])).
Proof.
  apply (calls_do_not_interfere fmt_sample fresh_heap
           (enter 0 [defpoints_line]) (enter 1 [origin_line_on_defpoints])
           overlap_schedule eq_refl eq_refl
           (or_introl separate_processors)); cbn; lia.
Defined.

(** * Further properties *)

(** X3.  Sampling a LINE, a CIRCLE or an ARC is all or nothing: a LINE gives
    0 or 2 points, a CIRCLE 0 or 16, an ARC 0 or 17; an attribute that cannot
    be read never leaves a partial sequence. *)
Theorem sampling_all_or_nothing (e : Entity) :
  (dxftype e = "LINE" ->
   List.length (get_entity_points e) = 0%nat \/
   List.length (get_entity_points e) = 2%nat) /\
  (dxftype e = "CIRCLE" ->
   List.length (get_entity_points e) = 0%nat \/
   List.length (get_entity_points e) = 16%nat) /\
  (dxftype e = "ARC" ->
   List.length (get_entity_points e) = 0%nat \/
   List.length (get_entity_points e) = 17%nat).
Proof.
  unfold get_entity_points.
  split; [|split]; intros ->; cbn [String.eqb Ascii.eqb Bool.eqb].
  - destruct (dxf_start e), (dxf_end e); cbn; auto.
  - destruct (dxf_center e), (dxf_radius e); cbn; auto.
  - destruct (dxf_center e), (dxf_radius e), (dxf_start_angle e),
      (dxf_end_angle e); cbn; auto.
Qed.

Lemma append_vertices_prefix (vs : list (attr Point)) :
  map Val (append_vertices vs) = firstn (List.length (append_vertices vs)) vs /\
  (List.length (append_vertices vs) <= List.length vs)%nat /\
  ((List.length (append_vertices vs) < List.length vs)%nat ->
   exists msg,
     nth_error vs (List.length (append_vertices vs)) = Some (Raises msg)).
Proof.
  induction vs as [|[p|msg] vs (IH1 & IH2 & IH3)].
  - cbn. repeat split; [lia | intros H; inversion H].
  - cbn [append_vertices map List.length firstn nth_error].
    split; [rewrite IH1 at 1; reflexivity|]. split; [lia|].
    intros H. apply IH3. lia.
  - cbn [append_vertices map List.length firstn nth_error].
    split; [reflexivity|]. split; [lia|]. intros _. exists msg. reflexivity.
Qed.

Lemma append_vertices_readable (ps : list Point) :
  append_vertices (map Val ps) = ps.
Proof.
  induction ps as [|p ps IH]; [reflexivity|].
  cbn [map append_vertices]. rewrite IH. reflexivity.
Qed.

Lemma get_entity_points_polyline (e : Entity) (vs : list (attr Point)) :
  (dxftype e = "LWPOLYLINE" /\ get_points e = Val vs) \/
  (dxftype e = "POLYLINE" /\ vertices e = Val vs) ->
  get_entity_points e = append_vertices vs.
Proof.
  unfold get_entity_points. intros [[-> ->]|[-> ->]]; reflexivity.
Qed.

(** X4.  A polyline of either kind whose vertex sequence can be read is
    sampled as the vertices before the first one that fails, in stored order:
    the sample is a prefix of the sequence, it stops short only at a vertex
    that raises, and when every vertex can be read it is the whole sequence,
    with no closing edge added. *)
Theorem polyline_sampling (e : Entity) (vs : list (attr Point)) :
  (dxftype e = "LWPOLYLINE" /\ get_points e = Val vs) \/
  (dxftype e = "POLYLINE" /\ vertices e = Val vs) ->
  let pts := get_entity_points e in
  map Val pts = firstn (List.length pts) vs /\
  (List.length pts <= List.length vs)%nat /\
  ((List.length pts < List.length vs)%nat ->
   exists msg, nth_error vs (List.length pts) = Some (Raises msg)) /\
  (forall ps, vs = map Val ps -> pts = ps).
Proof.
  intros H. cbv zeta. rewrite (get_entity_points_polyline e vs H).
  destruct (append_vertices_prefix vs) as (H1 & H2 & H3).
  repeat split; try assumption.
  intros ps ->. apply append_vertices_readable.
Qed.

Lemma member_false_cons (s x : string) (l : list string) :
  member s (x :: l) = false -> (s =? x) = false /\ member s l = false.
Proof.
  unfold member. cbn [existsb]. intros H. apply orb_false_iff in H. exact H.
Qed.

(** X6.  An entity whose type is none of LINE, LWPOLYLINE, POLYLINE, CIRCLE
    and ARC is sampled as no point, and its length is 0 for any point
    sequence. *)
Theorem unrecognized_sampling (e : Entity) :
  recognized e = false ->
  get_entity_points e = [] /\
  forall pts, calculate_entity_length e pts = 0.
Proof.
  unfold recognized, recognized_types. intros H.
  apply member_false_cons in H. destruct H as [H1 H].
  apply member_false_cons in H. destruct H as [H2 H].
  apply member_false_cons in H. destruct H as [H3 H].
  apply member_false_cons in H. destruct H as [H4 H].
  apply member_false_cons in H. destruct H as [H5 _].
  unfold get_entity_points, calculate_entity_length.
  rewrite H1, H2, H3, H4, H5. split; [reflexivity | intros; reflexivity].
Qed.

(** ** Further properties of the classifier *)

Lemma Rltb_false_iff (x y : R) : Rltb x y = false <-> y <= x.
Proof.
  unfold Rltb. destruct (Rlt_dec x y); split; intros; try easy; lra.
Qed.

Lemma extreme_false (p : Point) :
  extreme p = false <-> Rabs (px p) <= 50000 /\ Rabs (py p) <= 50000.
Proof.
  unfold extreme, Rgtb. rewrite orb_false_iff, !Rltb_false_iff. reflexivity.
Qed.

Lemma find_extreme_none (pts : list Point) :
  find extreme pts = None <->
  forall p, In p pts -> Rabs (px p) <= 50000 /\ Rabs (py p) <= 50000.
Proof.
  split.
  - intros H p Hp. apply extreme_false. exact (find_none _ _ H p Hp).
  - intros H. induction pts as [|q pts IH]; [reflexivity|].
    cbn [find]. rewrite (proj2 (extreme_false q) (H q (or_introl eq_refl))).
    apply IH. intros p Hp. apply H. right. exact Hp.
Qed.

Section FurtherClassifierProperties.

Variable fmt2f : R -> string.

Lemma line_rules_some (a b c : Point) (m : R) (v : bool * string) :
  line_rules fmt2f a b c m = Val (Some v) ->
  fst v = true /\ snd v <> "Entidad válida".
Proof.
  unfold line_rules.
  destruct (near_origin a || near_origin b);
    [intros H; injection H as <-; split; [reflexivity | discriminate]|].
  destruct (distance_to_call a b) as [d|msg]; cbn [bind]; [|discriminate].
  destruct (Rgtb _ _);
    [intros H; injection H as <-; split; [reflexivity | discriminate]|].
  destruct (distance_to_call _ c) as [d'|msg]; cbn [bind]; [|discriminate].
  destruct (Rgtb _ _);
    [intros H; injection H as <-; split; [reflexivity | discriminate]|].
  discriminate.
Qed.

(** The verdict once the layer and visibility rules are passed. *)
Lemma is_phantom_entity_geometry (e : Entity) (p : Point) (rest : list Point)
  (c : Point) (m : R) (l : string) :
  dxf_layer e = Val l -> member (upper l) phantom_layers = false ->
  has_invisible e = false ->
  is_phantom_entity fmt2f e (p :: rest) c m =
  match
    (if dxftype e =? "LINE" then
       match rest with
       | q :: _ => line_rules fmt2f p q c m
       | [] => Val None
       end
     else Val None)
  with
  | Val (Some verdict) => verdict
  | Val None => extreme_rule fmt2f (p :: rest)
  | Raises msg => (true, "Error procesando entidad: " ++ msg)
  end.
Proof.
  intros Hl Hm Hi. unfold is_phantom_entity, phantom_rules.
  rewrite Hl. cbn [bind]. rewrite Hm, Hi.
  destruct (dxftype e =? "LINE"); [destruct rest as [|q rest']|];
    try reflexivity.
  destruct (line_rules fmt2f p q c m) as [[v|]|msg]; reflexivity.
Qed.

End FurtherClassifierProperties.

Section VerdictProperties.

Variable fmt2f : R -> string.

(** The rules in their order, for a point sequence that is not empty. *)
Lemma verdict_cases (e : Entity) (p : Point) (rest : list Point) (c : Point)
  (m : R) :
  let v := is_phantom_entity fmt2f e (p :: rest) c m in
  (exists msg, dxf_layer e = Raises msg /\
               v = (true, "Error procesando entidad: " ++ msg)) \/
  (exists l, dxf_layer e = Val l /\ member (upper l) phantom_layers = true /\
             v = (true, "Capa fantasma: " ++ upper l)) \/
  (exists l, dxf_layer e = Val l /\ member (upper l) phantom_layers = false /\
             has_invisible e = true /\ v = (true, "Entidad invisible")) \/
  (exists l, dxf_layer e = Val l /\ member (upper l) phantom_layers = false /\
             has_invisible e = false /\
             v = match
                   (if dxftype e =? "LINE" then
                      match rest with
                      | q :: _ => line_rules fmt2f p q c m
                      | [] => Val None
                      end
                    else Val None)
                 with
                 | Val (Some verdict) => verdict
                 | Val None => extreme_rule fmt2f (p :: rest)
                 | Raises msg => (true, "Error procesando entidad: " ++ msg)
                 end).
Proof.
  cbv zeta. destruct (dxf_layer e) as [l|msg] eqn:Hl.
  - destruct (member (upper l) phantom_layers) eqn:Hm.
    + right. left. exists l.
      split; [reflexivity|]. split; [exact Hm|].
      unfold is_phantom_entity, phantom_rules. rewrite Hl. cbn [bind].
      rewrite Hm. reflexivity.
    + destruct (has_invisible e) eqn:Hi.
      * right. right. left. exists l.
        split; [reflexivity|]. split; [exact Hm|]. split; [reflexivity|].
        unfold is_phantom_entity, phantom_rules. rewrite Hl. cbn [bind].
        rewrite Hm, Hi. reflexivity.
      * right. right. right. exists l.
        split; [reflexivity|]. split; [exact Hm|]. split; [reflexivity|].
        apply (is_phantom_entity_geometry fmt2f e p rest c m l Hl Hm Hi).
  - left. exists msg. split; [reflexivity|].
    unfold is_phantom_entity, phantom_rules. rewrite Hl. reflexivity.
Qed.

Lemma extreme_rule_some (pts : list Point) (q : Point) :
  find extreme pts = Some q ->
  extreme_rule fmt2f pts = (true, extreme_reason fmt2f q).
Proof.
  intros H. unfold extreme_rule. rewrite H. reflexivity.
Qed.

(** X8.  The verdict and its reason agree: the entity is called valid
    exactly when the reason is ["Entidad válida"]; every phantom verdict
    carries another text. *)
Theorem verdict_reason_agree (e : Entity) (pts : list Point) (c : Point)
  (m : R) :
  fst (is_phantom_entity fmt2f e pts c m) = false <->
  snd (is_phantom_entity fmt2f e pts c m) = "Entidad válida".
Proof.
  destruct pts as [|p rest]; [split; discriminate|].
  destruct (verdict_cases e p rest c m)
    as [(msg & _ & ->)|[(l & _ & _ & ->)|[(l & _ & _ & _ & ->)
                                         |(l & _ & _ & _ & ->)]]];
    try (split; discriminate).
  destruct (if dxftype e =? "LINE" then _ else _) as [[v|]|msg] eqn:Hline.
  - assert (Hv : fst v = true /\ snd v <> "Entidad válida").
    { destruct (dxftype e =? "LINE"); [|discriminate].
      destruct rest as [|q rest']; [discriminate|].
      apply (line_rules_some fmt2f p q c m v Hline). }
    destruct Hv as [Hv1 Hv2]. rewrite Hv1. split; [discriminate | contradiction].
  - unfold extreme_rule. destruct (find extreme (p :: rest));
      split; try reflexivity; discriminate.
  - split; discriminate.
Qed.

(** X9.  An entity with a point whose x or y exceeds 50000 in absolute value
    is a phantom, whatever its type, layer and visibility; when it is not a
    LINE, its layer is accepted and it is visible, the reason reports the
    first such point of the sequence. *)
Theorem extreme_coordinates_verdict (e : Entity) (pts : list Point)
  (c : Point) (m : R) :
  (exists p, In p pts /\ (50000 < Rabs (px p) \/ 50000 < Rabs (py p))) ->
  fst (is_phantom_entity fmt2f e pts c m) = true /\
  (forall l, dxf_layer e = Val l -> member (upper l) phantom_layers = false ->
     has_invisible e = false -> (dxftype e =? "LINE") = false ->
     exists q, find extreme pts = Some q /\ In q pts /\
               snd (is_phantom_entity fmt2f e pts c m) =
               extreme_reason fmt2f q).
Proof.
  intros (p0 & Hin & Hbig).
  assert (Hfind : exists q, find extreme pts = Some q).
  { destruct (find extreme pts) as [q|] eqn:Hf; [exists q; reflexivity|].
    destruct (proj1 (find_extreme_none pts) Hf p0 Hin). lra. }
  destruct Hfind as [q Hq].
  destruct pts as [|p rest]; [destruct Hin|]. split.
  - destruct (verdict_cases e p rest c m)
      as [(msg & _ & ->)|[(l & _ & _ & ->)|[(l & _ & _ & _ & ->)
                                           |(l & _ & _ & _ & ->)]]];
      try reflexivity.
    destruct (if dxftype e =? "LINE" then _ else _) as [[v|]|msg] eqn:Hline.
    + destruct (dxftype e =? "LINE"); [|discriminate].
      destruct rest as [|q' rest']; [discriminate|].
      apply (line_rules_some fmt2f p q' c m v Hline).
    + rewrite (extreme_rule_some _ q Hq). reflexivity.
    + reflexivity.
  - intros l Hl Hm Hi Ht. exists q. split; [exact Hq|].
    split; [apply (find_some _ _ Hq)|].
    rewrite (is_phantom_entity_geometry fmt2f e p rest c m l Hl Hm Hi), Ht.
    rewrite (extreme_rule_some _ q Hq). reflexivity.
Qed.

(** X10.  An entity whose [invisible] attribute is present and set is a
    phantom whatever its geometry; with points, and a layer that can be read
    and is accepted, the reason is ["Entidad invisible"]. *)
Theorem invisible_verdict (e : Entity) (pts : list Point) (c : Point) (m : R) :
  has_invisible e = true ->
  fst (is_phantom_entity fmt2f e pts c m) = true /\
  (forall l, pts <> [] -> dxf_layer e = Val l ->
     member (upper l) phantom_layers = false ->
     snd (is_phantom_entity fmt2f e pts c m) = "Entidad invisible").
Proof.
  intros Hi. destruct pts as [|p rest].
  { split; [reflexivity | intros l H; congruence]. }
  destruct (verdict_cases e p rest c m)
    as [(msg & Hl & ->)|[(l & Hl & Hm & ->)|[(l & Hl & Hm & _ & ->)
                                            |(l & _ & _ & Hi' & _)]]];
    try congruence;
    (split; [reflexivity | intros l' _ Hl' Hm'; try congruence]).
  reflexivity.
Qed.

(** X11.  Only a LINE is measured against the design: for an entity of
    another type the verdict and its reason are the same under any design
    center and design dimension. *)
Theorem other_types_ignore_design (e : Entity) (pts : list Point)
  (c c' : Point) (m m' : R) :
  dxftype e <> "LINE" ->
  is_phantom_entity fmt2f e pts c m = is_phantom_entity fmt2f e pts c' m'.
Proof.
  intros Ht. apply String.eqb_neq in Ht.
  destruct pts as [|p rest]; [reflexivity|].
  unfold is_phantom_entity, phantom_rules.
  destruct (dxf_layer e) as [l|msg]; [|reflexivity]. cbn [bind].
  rewrite Ht. reflexivity.
Qed.

End VerdictProperties.

(** ** Minimum, maximum and mean *)

Lemma fold_Rmin_spec (l : list R) (a : R) :
  fold_left Rmin l a <= a /\
  (forall x, In x l -> fold_left Rmin l a <= x) /\
  In (fold_left Rmin l a) (a :: l).
Proof.
  revert a. induction l as [|y l IH]; intros a; cbn [fold_left].
  - split; [lra|]. split; [intros x []|]. left. reflexivity.
  - destruct (IH (Rmin a y)) as (H1 & H2 & H3).
    pose proof (Rmin_l a y). pose proof (Rmin_r a y).
    split; [lra|]. split.
    + intros x [<-|Hx]; [lra | apply H2, Hx].
    + destruct H3 as [H3|H3]; [|right; right; exact H3].
      rewrite <- H3. unfold Rmin. destruct (Rle_dec a y);
        [left | right; left]; reflexivity.
Qed.

Lemma fold_Rmax_spec (l : list R) (a : R) :
  a <= fold_left Rmax l a /\
  (forall x, In x l -> x <= fold_left Rmax l a) /\
  In (fold_left Rmax l a) (a :: l).
Proof.
  revert a. induction l as [|y l IH]; intros a; cbn [fold_left].
  - split; [lra|]. split; [intros x []|]. left. reflexivity.
  - destruct (IH (Rmax a y)) as (H1 & H2 & H3).
    pose proof (Rmax_l a y). pose proof (Rmax_r a y).
    split; [lra|]. split.
    + intros x [<-|Hx]; [lra | apply H2, Hx].
    + destruct H3 as [H3|H3]; [|right; right; exact H3].
      rewrite <- H3. unfold Rmax. destruct (Rle_dec a y);
        [right; left | left]; reflexivity.
Qed.

Lemma py_min_spec (xs : list R) :
  xs <> [] -> In (py_min xs) xs /\ forall x, In x xs -> py_min xs <= x.
Proof.
  destruct xs as [|a l]; [congruence|]. intros _. cbn [py_min].
  destruct (fold_Rmin_spec l a) as (H1 & H2 & H3).
  split; [exact H3|]. intros x [<-|Hx]; [exact H1 | apply H2, Hx].
Qed.

Lemma py_max_spec (xs : list R) :
  xs <> [] -> In (py_max xs) xs /\ forall x, In x xs -> x <= py_max xs.
Proof.
  destruct xs as [|a l]; [congruence|]. intros _. cbn [py_max].
  destruct (fold_Rmax_spec l a) as (H1 & H2 & H3).
  split; [exact H3|]. intros x [<-|Hx]; [exact H1 | apply H2, Hx].
Qed.

Lemma sum_from (xs : list R) (acc : R) :
  fold_left Rplus xs acc = acc + sum xs.
Proof.
  unfold sum. revert acc. induction xs as [|x xs IH]; intros acc;
    cbn [fold_left]; [ring|].
  rewrite (IH (acc + x)), (IH (0 + x)). ring.
Qed.

Lemma sum_cons (x : R) (xs : list R) : sum (x :: xs) = x + sum xs.
Proof.
  unfold sum at 1. cbn [fold_left]. rewrite sum_from. ring.
Qed.

Lemma sum_bounds (xs : list R) (lo hi : R) :
  (forall x, In x xs -> lo <= x <= hi) ->
  INR (List.length xs) * lo <= sum xs <= INR (List.length xs) * hi.
Proof.
  induction xs as [|x xs IH]; intros H.
  - unfold sum. cbn. lra.
  - rewrite sum_cons. change (List.length (x :: xs)) with (S (List.length xs)).
    rewrite S_INR.
    destruct (H x (or_introl eq_refl)).
    destruct IH as [IH1 IH2]; [intros y Hy; apply H; right; exact Hy|].
    split; lra.
Qed.

Lemma mean_bounds (xs : list R) (lo hi : R) :
  xs <> [] -> (forall x, In x xs -> lo <= x <= hi) ->
  lo <= sum xs / INR (List.length xs) <= hi.
Proof.
  intros Hne H. pose proof (sum_bounds xs lo hi H) as [H1 H2].
  assert (Hn : 0 < INR (List.length xs)).
  { destruct xs; [congruence|]. apply lt_0_INR. cbn. lia. }
  split.
  - apply Rmult_le_reg_r with (INR (List.length xs)); [exact Hn|].
    unfold Rdiv. rewrite Rmult_assoc, Rinv_l by lra. lra.
  - apply Rmult_le_reg_r with (INR (List.length xs)); [exact Hn|].
    unfold Rdiv. rewrite Rmult_assoc, Rinv_l by lra. lra.
Qed.

(** ** Design statistics *)

Lemma get_design_statistics_nonempty (es : list Entity) :
  collect_points es <> [] ->
  get_design_statistics es =
  (mkPoint (sum (map px (collect_points es)) /
            INR (List.length (collect_points es)))
           (sum (map py (collect_points es)) /
            INR (List.length (collect_points es))),
   Rmax (py_max (map px (collect_points es)) -
         py_min (map px (collect_points es)))
        (py_max (map py (collect_points es)) -
         py_min (map py (collect_points es)))).
Proof.
  unfold get_design_statistics. destruct (collect_points es); [congruence|].
  reflexivity.
Qed.

Lemma map_nonempty {A B : Type} (f : A -> B) (l : list A) :
  l <> [] -> map f l <> [].
Proof. destruct l; [congruence | discriminate]. Qed.

(** The extent of the samples: every coordinate lies between the minimum and
    the maximum, both of which are coordinates of samples, and so does the
    mean. *)
Lemma coordinate_range (f : Point -> R) (ps : list Point) :
  ps <> [] ->
  let lo := py_min (map f ps) in
  let hi := py_max (map f ps) in
  (forall p, In p ps -> lo <= f p <= hi) /\
  lo <= sum (map f ps) / INR (List.length ps) <= hi /\
  (exists p q, In p ps /\ In q ps /\ lo = f p /\ hi = f q).
Proof.
  intros Hne lo hi.
  destruct (py_min_spec (map f ps) (map_nonempty f ps Hne)) as [Hmin_in Hmin].
  destruct (py_max_spec (map f ps) (map_nonempty f ps Hne)) as [Hmax_in Hmax].
  assert (Hrange : forall p, In p ps -> lo <= f p <= hi).
  { intros p Hp. split; [apply Hmin | apply Hmax]; apply in_map, Hp. }
  split; [exact Hrange|]. split.
  - rewrite <- (length_map f ps). apply mean_bounds.
    + apply map_nonempty, Hne.
    + intros x Hx. apply in_map_iff in Hx. destruct Hx as (p & <- & Hp).
      apply Hrange, Hp.
  - apply in_map_iff in Hmin_in. destruct Hmin_in as (p & Hp1 & Hp2).
    apply in_map_iff in Hmax_in. destruct Hmax_in as (q & Hq1 & Hq2).
    exists p, q. repeat split; try assumption; symmetry; assumption.
Qed.

(** X12.  When the design has at least one sample point, the design dimension
    is not negative; every sample point is within it of the design center on
    each axis, any two sample points are within it of each other on each
    axis, and it is the x or the y distance between two sample points. *)
Theorem design_statistics_bounds (es : list Entity) (c : Point) (m : R) :
  collect_points es <> [] -> get_design_statistics es = (c, m) ->
  0 <= m /\
  (forall p, In p (collect_points es) ->
     Rabs (px p - px c) <= m /\ Rabs (py p - py c) <= m) /\
  (forall p q, In p (collect_points es) -> In q (collect_points es) ->
     Rabs (px p - px q) <= m /\ Rabs (py p - py q) <= m) /\
  (exists p q, In p (collect_points es) /\ In q (collect_points es) /\
               (m = px q - px p \/ m = py q - py p)).
Proof.
  intros Hne Hstat.
  rewrite (get_design_statistics_nonempty es Hne) in Hstat.
  injection Hstat as <- <-. cbn [px py].
  destruct (coordinate_range px _ Hne) as (Hx & Hcx & (p1 & q1 & Hp1 & Hq1 & Hlox & Hhix)).
  destruct (coordinate_range py _ Hne) as (Hy & Hcy & (p2 & q2 & Hp2 & Hq2 & Hloy & Hhiy)).
  cbv zeta in *.
  set (lox := py_min (map px (collect_points es))) in *.
  set (hix := py_max (map px (collect_points es))) in *.
  set (loy := py_min (map py (collect_points es))) in *.
  set (hiy := py_max (map py (collect_points es))) in *.
  pose proof (Rmax_l (hix - lox) (hiy - loy)) as Hl.
  pose proof (Rmax_r (hix - lox) (hiy - loy)) as Hr.
  set (M := Rmax (hix - lox) (hiy - loy)) in *.
  split; [specialize (Hx p1 Hp1); lra|].
  split; [|split].
  - intros p Hp. specialize (Hx p Hp). specialize (Hy p Hp).
    split; apply Rabs_le; lra.
  - intros p q Hp Hq.
    pose proof (Hx p Hp). pose proof (Hx q Hq).
    pose proof (Hy p Hp). pose proof (Hy q Hq).
    split; apply Rabs_le; lra.
  - unfold M, Rmax. destruct (Rle_dec (hix - lox) (hiy - loy)).
    + exists p2, q2. repeat split; try assumption. right. lra.
    + exists p1, q1. repeat split; try assumption. left. lra.
Qed.

Lemma Rabs_le_bounds (a b : R) : Rabs a <= b -> - b <= a <= b.
Proof.
  unfold Rabs. destruct (Rcase_abs a); intros; lra.
Qed.

(** ** Bounding box *)

Lemma calculate_bounding_box_nonempty (entities : list ProcessedEntity) :
  flat_map points entities <> [] ->
  calculate_bounding_box entities =
  mkBoundingBox (py_min (map px (flat_map points entities)))
                (py_min (map py (flat_map points entities)))
                (py_max (map px (flat_map points entities)))
                (py_max (map py (flat_map points entities))).
Proof.
  intros H. unfold calculate_bounding_box.
  destruct entities as [|e entities]; [cbn in H; congruence|].
  destruct (flat_map points (e :: entities)); [congruence | reflexivity].
Qed.

Lemma calculate_bounding_box_empty (entities : list ProcessedEntity) :
  flat_map points entities = [] ->
  calculate_bounding_box entities = mkBoundingBox 0 0 0 0.
Proof.
  intros H. unfold calculate_bounding_box.
  destruct entities as [|e entities]; [reflexivity|]. rewrite H. reflexivity.
Qed.

(** X13.  The bounding box encloses every point of every entity it is
    computed from; its width, height and area are never negative; when there
    is a point, each of its four bounds is a coordinate of some point, and
    when there is none it is the box [(0,0,0,0)]. *)
Theorem bounding_box_encloses (entities : list ProcessedEntity) :
  let b := calculate_bounding_box entities in
  (forall e p, In e entities -> In p (points e) -> inside b p) /\
  0 <= width b /\ 0 <= height b /\ 0 <= area b /\
  (flat_map points entities <> [] ->
   exists p1 p2 p3 p4,
     In p1 (flat_map points entities) /\ In p2 (flat_map points entities) /\
     In p3 (flat_map points entities) /\ In p4 (flat_map points entities) /\
     min_x b = px p1 /\ max_x b = px p2 /\
     min_y b = py p3 /\ max_y b = py p4) /\
  (flat_map points entities = [] -> b = mkBoundingBox 0 0 0 0).
Proof.
  cbv zeta.
  destruct (flat_map points entities) as [|p0 ps] eqn:Hall.
  - rewrite (calculate_bounding_box_empty entities Hall).
    unfold area, width, height, inside. cbn [min_x min_y max_x max_y].
    split.
    { intros e p He Hp.
      assert (Hin : In p (flat_map points entities))
        by (apply in_flat_map; exists e; split; assumption).
      rewrite Hall in Hin. destruct Hin. }
    repeat (split; [lra|]).
    split; [intros H; exfalso; apply H; reflexivity | reflexivity].
  - assert (Hne : flat_map points entities <> []) by (rewrite Hall; discriminate).
    rewrite (calculate_bounding_box_nonempty entities Hne).
    destruct (coordinate_range px _ Hne)
      as (Hx & _ & (p1 & p2 & Hp1 & Hp2 & Hlox & Hhix)).
    destruct (coordinate_range py _ Hne)
      as (Hy & _ & (p3 & p4 & Hp3 & Hp4 & Hloy & Hhiy)).
    cbv zeta in *. rewrite <- Hall.
    unfold area, width, height, inside. cbn [min_x min_y max_x max_y].
    pose proof (Hx p1 Hp1) as Hwx. pose proof (Hy p3 Hp3) as Hwy.
    split.
    { intros e p He Hp.
      assert (Hin : In p (flat_map points entities))
        by (apply in_flat_map; exists e; split; assumption).
      split; [apply Hx | apply Hy]; exact Hin. }
    split; [lra|]. split; [lra|].
    split; [apply Rmult_le_pos; lra|].
    split; [|intros H; contradiction].
    intros _. exists p1, p2, p3, p4. repeat split; assumption.
Qed.

(** ** Rounding *)

Lemma round_half_even_error (y : R) :
  Rabs (IZR (round_half_even y) - y) <= 1 / 2.
Proof.
  unfold round_half_even.
  destruct (base_Int_part y) as [H1 H2].
  destruct (Rlt_dec (y - IZR (Int_part y)) (1 / 2)) as [Hlt|Hge].
  - apply Rabs_le. lra.
  - destruct (Rlt_dec (1 / 2) (y - IZR (Int_part y))) as [Hgt|Hle].
    + rewrite plus_IZR. apply Rabs_le. lra.
    + destruct (Z.even (Int_part y)); [|rewrite plus_IZR]; apply Rabs_le; lra.
Qed.

Lemma round_error (x : R) (n : nat) :
  Rabs (round x n - x) <= / 2 * / 10 ^ n.
Proof.
  unfold round.
  assert (Hp : 0 < 10 ^ n) by (apply pow_lt; lra).
  replace (IZR (round_half_even (x * 10 ^ n)) / 10 ^ n - x)
    with ((IZR (round_half_even (x * 10 ^ n)) - x * 10 ^ n) * / 10 ^ n)
    by (field; lra).
  rewrite Rabs_mult, (Rabs_pos_eq (/ 10 ^ n))
    by (left; apply Rinv_0_lt_compat, Hp).
  pose proof (round_half_even_error (x * 10 ^ n)) as He.
  apply Rmult_le_compat_r; [left; apply Rinv_0_lt_compat, Hp | lra].
Qed.

Lemma round_nonneg (x : R) (n : nat) : 0 <= x -> 0 <= round x n.
Proof.
  intros Hx. unfold round.
  assert (Hp : 0 < 10 ^ n) by (apply pow_lt; lra).
  assert (Hy : 0 <= x * 10 ^ n) by (apply Rmult_le_pos; lra).
  apply Rmult_le_pos; [|left; apply Rinv_0_lt_compat, Hp].
  destruct (base_Int_part (x * 10 ^ n)) as [H1 H2].
  assert (Hf : (0 <= Int_part (x * 10 ^ n))%Z).
  { apply le_IZR. apply Rnot_lt_le. intros Hneg.
    assert (IZR (Int_part (x * 10 ^ n)) <= -1).
    { apply IZR_le. apply lt_IZR in Hneg. lia. }
    lra. }
  unfold round_half_even.
  repeat match goal with |- context [if ?b then _ else _] => destruct b end;
    apply IZR_le; lia.
Qed.

Lemma Forall2_in_right {A B : Type} (P : A -> B -> Prop) (l1 : list A)
  (l2 : list B) (y : B) :
  Forall2 P l1 l2 -> In y l2 -> exists x, In x l1 /\ P x y.
Proof.
  induction 1 as [|x y' l1 l2 Hxy _ IH]; intros Hin; [destruct Hin|].
  destruct Hin as [<-|Hin].
  - exists x. split; [left; reflexivity | exact Hxy].
  - destruct (IH Hin) as (x' & Hx' & HP). exists x'. split; [right|]; assumption.
Qed.

Lemma sum_nonneg (xs : list R) : (forall x, In x xs -> 0 <= x) -> 0 <= sum xs.
Proof.
  induction xs as [|x xs IH]; intros H; [unfold sum; cbn; lra|].
  rewrite sum_cons. pose proof (H x (or_introl eq_refl)).
  assert (0 <= sum xs) by (apply IH; intros y Hy; apply H; right; exact Hy).
  lra.
Qed.

Lemma distance_to_call_nonneg (a b : Point) (d : R) :
  distance_to_call a b = Val d -> 0 <= d.
Proof.
  unfold distance_to_call.
  destruct (pow2 (px a - px b)) as [dx2|]; cbn [bind]; [|discriminate].
  destruct (pow2 (py a - py b)) as [dy2|]; cbn [bind]; [|discriminate].
  intros H. injection H as <-. apply sqrt_pos.
Qed.

Lemma polyline_loop_nonneg (pts : list Point) (idx : list nat) :
  forall total t,
    fold_left
      (fun total i =>
         total_length <- total ;;
         d <- distance_to_call (nth i pts origin) (nth (i + 1) pts origin) ;;
         Val (total_length + d)) idx total = Val t ->
    exists t0, total = Val t0 /\ t0 <= t.
Proof.
  induction idx as [|i idx IH]; intros total t H; cbn [fold_left] in H.
  - exists t. split; [exact H | lra].
  - apply IH in H. destruct H as (t1 & H1 & Hle).
    destruct total as [t0|msg]; cbn [bind] in H1; [|discriminate].
    destruct (distance_to_call _ _) as [d|msg] eqn:Hd; cbn [bind] in H1;
      [|discriminate].
    injection H1 as <-. apply distance_to_call_nonneg in Hd.
    exists t0. split; [reflexivity | lra].
Qed.

Lemma calculate_entity_length_nonneg (e : Entity) (pts : list Point) :
  (forall r, dxf_radius e = Val r -> 0 <= r) ->
  0 <= calculate_entity_length e pts.
Proof.
  intros Hr. unfold calculate_entity_length.
  destruct (dxftype e =? "LINE").
  { destruct pts as [|p [|q rest]]; try lra.
    destruct (distance_to_call p q) as [d|] eqn:Hd; [|lra].
    apply (distance_to_call_nonneg p q d Hd). }
  destruct ((dxftype e =? "LWPOLYLINE") || (dxftype e =? "POLYLINE")).
  { destruct (polyline_length pts) as [t|] eqn:Hp; [|lra].
    destruct (polyline_loop_nonneg pts _ _ t Hp) as (t0 & H0 & Hle).
    injection H0 as <-. exact Hle. }
  pose proof PI_RGT_0 as Hpi.
  destruct (dxftype e =? "CIRCLE").
  { destruct (dxf_radius e) as [r|]; [|lra].
    specialize (Hr r eq_refl). apply Rmult_le_pos; lra. }
  destruct (dxftype e =? "ARC"); [|lra].
  destruct (dxf_radius e) as [r|]; cbn [bind]; [|lra].
  destruct (dxf_start_angle e) as [s|]; cbn [bind]; [|lra].
  destruct (dxf_end_angle e) as [t|]; cbn [bind]; [|lra].
  specialize (Hr r eq_refl). apply Rmult_le_pos; [apply Rabs_pos | exact Hr].
Qed.

Lemma sqrt_le_of_sq (x y : R) : 0 <= y -> x <= y ^ 2 -> sqrt x <= y.
Proof.
  intros Hy Hx.
  apply Rle_trans with (sqrt (y ^ 2)); [apply sqrt_le_1_alt; exact Hx|].
  rewrite sqrt_pow2 by exact Hy. lra.
Qed.




Lemma Rleb_cases (x y : R) :
  (Rleb x y = true /\ x <= y) \/ (Rleb x y = false /\ y < x).
Proof.
  unfold Rleb. destruct (Rle_dec x y); [left | right]; split;
    try reflexivity; lra.
Qed.

Lemma pow2_cases (x : R) :
  (pow2 x = Raises overflow_error /\ overflow_threshold <= x ^ 2) \/
  (pow2 x = Val (x ^ 2) /\ x ^ 2 < overflow_threshold).
Proof.
  unfold pow2. destruct (Rleb_cases overflow_threshold (x ^ 2)) as [[-> H]|[-> H]];
    [left | right]; split; try reflexivity; exact H.
Qed.

(** When the call returns and when it raises. *)
Lemma distance_to_call_cases (a b : Point) :
  (distance_to_call a b = Val (distance_to a b) /\
   (px a - px b) ^ 2 < overflow_threshold /\
   (py a - py b) ^ 2 < overflow_threshold) \/
  (distance_to_call a b = Raises overflow_error /\
   (overflow_threshold <= (px a - px b) ^ 2 \/
    overflow_threshold <= (py a - py b) ^ 2)).
Proof.
  unfold distance_to_call.
  destruct (pow2_cases (px a - px b)) as [[-> Hx]|[-> Hx]]; cbn [bind].
  - right. split; [reflexivity | left; exact Hx].
  - destruct (pow2_cases (py a - py b)) as [[-> Hy]|[-> Hy]]; cbn [bind].
    + right. split; [reflexivity | right; exact Hy].
    + left. split; [reflexivity | split; assumption].
Qed.

Lemma in_range_squares (a b : Point) :
  in_range a b ->
  (px a - px b) ^ 2 < overflow_threshold /\
  (py a - py b) ^ 2 < overflow_threshold.
Proof.
  unfold in_range. intros H.
  pose proof (pow2_ge_0 (px a - px b)). pose proof (pow2_ge_0 (py a - py b)).
  split; lra.
Qed.















Section ValidVerdict.

Variable fmt2f : R -> string.



End ValidVerdict.

Section RunProperties.

Variable fmt2f : R -> string.

Lemma process_loop_records (c : Point) (m : R) (es : list Entity) :
  let phantom e :=
    fst (is_phantom_entity fmt2f e (get_entity_points e) c m) in
  forall self self',
    process_loop fmt2f c m es self = (self', None) ->
    exists vs ps,
      valid_entities self' = (valid_entities self ++ vs)%list /\
      phantom_entities self' = (phantom_entities self ++ ps)%list /\
      Forall2 (record_of fmt2f c m)
              (filter (fun e => kept e && negb (phantom e)) es) vs /\
      Forall2 (record_of fmt2f c m)
              (filter (fun e => kept e && phantom e) es) ps.
Proof.
  intros phantom. induction es as [|e es IH]; intros self self' H.
  - cbn [process_loop] in H. injection H as <-. exists [], [].
    rewrite !app_nil_r. repeat split; constructor.
  - cbn [process_loop filter] in H |- *.
    destruct (kept e) eqn:Hk.
    + rewrite (process_entity_kept fmt2f c m self e Hk) in H. cbv zeta in H.
      destruct (dxf_layer e) as [l|msg] eqn:Hl; [|discriminate].
      cbn [andb]. fold (phantom e) in H.
      assert (Hrec : forall b, phantom e = b ->
                record_of fmt2f c m e
                  (mkProcessedEntity (dxftype e) (get_entity_points e)
                     (sampled_length e) l (negb b)
                     (if b then
                        Some (snd (is_phantom_entity fmt2f e
                                     (get_entity_points e) c m))
                      else None))).
      { intros b Hb. unfold record_of. split; [exact Hk|]. exists l.
        split; [exact Hl|]. fold (phantom e). rewrite Hb. reflexivity. }
      destruct (phantom e) eqn:Hp; apply IH in H;
        destruct H as (vs & ps & Hv & Hph & Fv & Fp);
        cbn [valid_entities phantom_entities negb] in Hv, Hph |- *.
      * exists vs, (mkProcessedEntity (dxftype e) (get_entity_points e)
                      (sampled_length e) l false
                      (Some (snd (is_phantom_entity fmt2f e
                                    (get_entity_points e) c m))) :: ps).
        split; [exact Hv|]. split; [rewrite Hph, <- app_assoc; reflexivity|].
        split; [exact Fv|]. constructor; [exact (Hrec true eq_refl) | exact Fp].
      * exists (mkProcessedEntity (dxftype e) (get_entity_points e)
                  (sampled_length e) l true None :: vs), ps.
        split; [rewrite Hv, <- app_assoc; reflexivity|]. split; [exact Hph|].
        split; [|exact Fp].
        constructor; [exact (Hrec false eq_refl) | exact Fv].
    + rewrite (process_entity_skip fmt2f c m self e Hk) in H. cbn [andb].
      apply IH. exact H.
Qed.

(** The records of a successful run, partition by partition. *)
Lemma run_records (self : DXFProcessor) (es : list Entity)
  (r : AnalysisResult) :
  snd (process_entities fmt2f self es) = Success r ->
  let c := Stats.design_center (statistics r) in
  let m := Stats.max_design_dimension (statistics r) in
  get_design_statistics es = (c, m) /\
  Forall2 (record_of fmt2f c m)
          (filter (classified_valid fmt2f es) es) (entities_valid r) /\
  Forall2 (record_of fmt2f c m)
          (filter (classified_phantom fmt2f es) es) (entities_phantom r).
Proof.
  intros H. apply process_entities_success in H.
  destruct H as (c & m & self1 & Hstat & Hloop & ->).
  cbn [statistics Stats.design_center Stats.max_design_dimension
       entities_valid entities_phantom].
  apply process_loop_records in Hloop.
  destruct Hloop as (vs & ps & Hv & Hp & Fv & Fp).
  cbn [valid_entities phantom_entities app] in Hv, Hp. subst vs ps.
  rewrite (classified_valid_unfold fmt2f es c m Hstat).
  rewrite (classified_phantom_unfold fmt2f es c m Hstat).
  split; [exact Hstat|]. split; assumption.
Qed.

End RunProperties.

Section ResultProperties.

Variable fmt2f : R -> string.

(** X15.  In a successful run every record of the valid partition has
    [is_valid] set and no rejection reason, every record of the phantom
    partition has [is_valid] cleared and a rejection reason, and each record
    carries the type, the layer as stored (not upper-cased), the sampled
    points and the length of a kept input entity. *)
Theorem result_records (self : DXFProcessor) (es : list Entity)
  (r : AnalysisResult) :
  snd (process_entities fmt2f self es) = Success r ->
  (forall p, In p (entities_valid r) ->
     is_valid p = true /\ rejection_reason p = None /\
     exists e, In e es /\ kept e = true /\ dxf_layer e = Val (layer p) /\
               entity_type p = dxftype e /\ points p = get_entity_points e /\
               length p = sampled_length e) /\
  (forall p, In p (entities_phantom r) ->
     is_valid p = false /\ rejection_reason p <> None /\
     exists e, In e es /\ kept e = true /\ dxf_layer e = Val (layer p) /\
               entity_type p = dxftype e /\ points p = get_entity_points e /\
               length p = sampled_length e).
Proof.
  intros H. destruct (run_records fmt2f self es r H) as (Hstat & Fv & Fp).
  set (c := Stats.design_center (statistics r)) in *.
  set (m := Stats.max_design_dimension (statistics r)) in *.
  rewrite (classified_valid_unfold fmt2f es c m Hstat) in Fv.
  rewrite (classified_phantom_unfold fmt2f es c m Hstat) in Fp.
  split; intros p Hp.
  - destruct (Forall2_in_right _ _ _ p Fv Hp) as (e & He & Hk & l & Hl & ->).
    apply filter_In in He. destruct He as [He Hf].
    apply andb_true_iff in Hf. destruct Hf as [_ Hf].
    apply negb_true_iff in Hf. rewrite Hf. cbn.
    repeat split. exists e. repeat split; assumption.
  - destruct (Forall2_in_right _ _ _ p Fp Hp) as (e & He & Hk & l & Hl & ->).
    apply filter_In in He. destruct He as [He Hf].
    apply andb_true_iff in Hf. destruct Hf as [_ Hf].
    rewrite Hf. cbn.
    split; [reflexivity|]. split; [discriminate|].
    exists e. repeat split; assumption.
Qed.

Lemma run_total_cut_length (self : DXFProcessor) (es : list Entity)
  (r : AnalysisResult) :
  snd (process_entities fmt2f self es) = Success r ->
  cut_length r = mkCutLength (round (valid_length fmt2f es) 2)
                             (round (valid_length fmt2f es / 1000) 3).
Proof.
  intros H. apply process_entities_success in H.
  destruct H as (c & m & self1 & Hstat & Hloop & ->).
  apply process_loop_invariant in Hloop. destruct Hloop as [Hlen _].
  cbn [valid_entities map app] in Hlen.
  rewrite <- (classified_valid_unfold fmt2f es c m Hstat) in Hlen.
  unfold valid_length. cbn [cut_length]. rewrite Hlen. reflexivity.
Qed.

(** X17.  In a successful run [total_mm] is within 0.005 of the sum of the
    valid lengths, [total_m] within 0.0005 of that sum divided by 1000, and
    [total_mm / 1000] within 0.000505 of [total_m]. *)
Theorem reported_totals_accuracy (self : DXFProcessor) (es : list Entity)
  (r : AnalysisResult) :
  snd (process_entities fmt2f self es) = Success r ->
  Rabs (total_mm (cut_length r) - valid_length fmt2f es) <= 5 / 1000 /\
  Rabs (total_m (cut_length r) - valid_length fmt2f es / 1000) <= 5 / 10000 /\
  Rabs (total_mm (cut_length r) / 1000 - total_m (cut_length r)) <=
  505 / 1000000.
Proof.
  intros H. rewrite (run_total_cut_length self es r H).
  cbn [total_mm total_m].
  pose proof (round_error (valid_length fmt2f es) 2) as H2.
  pose proof (round_error (valid_length fmt2f es / 1000) 3) as H3.
  replace (/ 2 * / 10 ^ 2) with (5 / 1000) in H2 by (simpl; lra).
  replace (/ 2 * / 10 ^ 3) with (5 / 10000) in H3 by (simpl; lra).
  split; [exact H2|]. split; [exact H3|].
  apply Rabs_le_bounds in H2. apply Rabs_le_bounds in H3.
  apply Rabs_le. lra.
Qed.

(** X18.  When no entity of the input has a negative radius, a successful
    run reports no negative length: each valid record's length, their sum
    and both rounded totals are at least 0. *)
Theorem totals_nonnegative (self : DXFProcessor) (es : list Entity)
  (r : AnalysisResult) :
  (forall e x, In e es -> dxf_radius e = Val x -> 0 <= x) ->
  snd (process_entities fmt2f self es) = Success r ->
  (forall p, In p (entities_valid r) -> 0 <= length p) /\
  0 <= valid_length fmt2f es /\
  0 <= total_mm (cut_length r) /\ 0 <= total_m (cut_length r).
Proof.
  intros Hrad H.
  assert (Hlen : forall e, In e es -> 0 <= sampled_length e).
  { intros e He. apply calculate_entity_length_nonneg.
    intros x Hx. apply (Hrad e x He Hx). }
  assert (Hsum : 0 <= valid_length fmt2f es).
  { unfold valid_length. apply sum_nonneg. intros x Hx.
    apply in_map_iff in Hx. destruct Hx as (e & <- & He).
    apply filter_In in He. apply Hlen, He. }
  split.
  - intros p Hp. destruct (run_records fmt2f self es r H) as (_ & Fv & _).
    destruct (Forall2_in_right _ _ _ p Fv Hp) as (e & He & _ & l & _ & ->).
    apply filter_In in He. cbn [length]. apply Hlen, He.
  - split; [exact Hsum|]. rewrite (run_total_cut_length self es r H).
    cbn [total_mm total_m]. split; apply round_nonneg; [exact Hsum|].
    apply Rmult_le_pos; [exact Hsum | lra].
Qed.

End ResultProperties.

Lemma kept_points (e : Entity) :
  kept e = true ->
  recognized e = true /\
  exists p rest, get_entity_points e = p :: rest.
Proof.
  unfold kept. intros H. apply andb_true_iff in H. destruct H as [Hr Hp].
  split; [exact Hr|]. destruct (get_entity_points e) as [|p rest];
    [discriminate|]. exists p, rest. reflexivity.
Qed.

Lemma member_true (s : string) (l : list string) :
  member s l = true -> In s l.
Proof.
  unfold member. intros H. apply existsb_exists in H.
  destruct H as (x & Hx & Heq). apply String.eqb_eq in Heq. subst x. exact Hx.
Qed.

Section ReasonProperties.

Variable fmt2f : R -> string.

(** What the LINE rules can answer, and what they can raise. *)
Lemma line_rules_reasons (a b c : Point) (m : R) :
  match line_rules fmt2f a b c m with
  | Val (Some v) =>
      v = (true, "Línea conecta con origen (0,0)") \/
      (exists d, v = (true, "Línea demasiado larga: " ++ fmt2f d ++ "mm")) \/
      (exists d, v = (true, "Línea alejada del diseño: " ++ fmt2f d ++ "mm"))
  | Val None => True
  | Raises msg => msg = overflow_error
  end.
Proof.
  unfold line_rules.
  destruct (near_origin a || near_origin b); [left; reflexivity|].
  destruct (distance_to_call_cases a b) as [[-> _]|[-> _]]; cbn [bind];
    [|reflexivity].
  destruct (Rgtb _ _); [right; left; eexists; reflexivity|].
  destruct (distance_to_call_cases
              (mkPoint ((px a + px b) / 2) ((py a + py b) / 2)) c)
    as [[-> _]|[-> _]]; cbn [bind]; [|reflexivity].
  destruct (Rgtb _ _); [right; right; eexists; reflexivity | exact I].
Qed.

(** X16.  In a successful run every phantom carries one of these reasons:
    the layer reason with one of the five rejected names, the invisible
    reason, on a LINE the origin, too-long or far-from-design reason or the
    error reason of a [distance_to] that overflowed, or the
    extreme-coordinates reason for one of its points.  The reason for an
    empty point sequence never reaches a result, and neither does the error
    reason of a layer that cannot be read. *)
Theorem result_reasons (self : DXFProcessor) (es : list Entity)
  (r : AnalysisResult) :
  snd (process_entities fmt2f self es) = Success r ->
  forall p, In p (entities_phantom r) ->
    exists reason,
      rejection_reason p = Some reason /\
      reason <> "Sin puntos válidos" /\
      ((exists name, In name phantom_layers /\
                     reason = "Capa fantasma: " ++ name) \/
       reason = "Entidad invisible" \/
       (entity_type p = "LINE" /\
        (reason = "Línea conecta con origen (0,0)" \/
         (exists d, reason = "Línea demasiado larga: " ++ fmt2f d ++ "mm") \/
         (exists d, reason = "Línea alejada del diseño: " ++ fmt2f d ++ "mm") \/
         reason = "Error procesando entidad: " ++ overflow_error)) \/
       (exists q, In q (points p) /\ reason = extreme_reason fmt2f q)).
Proof.
  intros H p Hp. destruct (run_records fmt2f self es r H) as (Hstat & _ & Fp).
  set (c := Stats.design_center (statistics r)) in *.
  set (m := Stats.max_design_dimension (statistics r)) in *.
  rewrite (classified_phantom_unfold fmt2f es c m Hstat) in Fp.
  destruct (Forall2_in_right _ _ _ p Fp Hp) as (e & He & Hk & l & Hl & ->).
  apply filter_In in He. destruct He as [He Hf].
  apply andb_true_iff in Hf. destruct Hf as [_ Hf].
  destruct (kept_points e Hk) as (Hrec & p0 & rest & Hpts).
  rewrite Hf. cbn [rejection_reason layer entity_type points].
  eexists. split; [reflexivity|].
  rewrite Hpts in Hf |- *.
  assert (Hextreme : forall pts,
            fst (extreme_rule fmt2f pts) = true ->
            exists q, In q pts /\
                      snd (extreme_rule fmt2f pts) = extreme_reason fmt2f q).
  { intros pts Hx. unfold extreme_rule in Hx |- *.
    destruct (find extreme pts) as [q|] eqn:Hq; [|discriminate].
    exists q. split; [apply (find_some _ _ Hq) | reflexivity]. }
  destruct (verdict_cases fmt2f e p0 rest c m)
    as [(msg & Hl' & _)|[(l' & Hl' & Hin & Hv)|[(l' & _ & _ & _ & Hv)
                                              |(l' & _ & _ & _ & Hv)]]].
  - congruence.
  - rewrite Hv. cbn [snd]. split; [discriminate|].
    left. exists (upper l'). split; [apply member_true, Hin | reflexivity].
  - rewrite Hv. cbn [snd]. split; [discriminate|]. right. left. reflexivity.
  - rewrite Hv in Hf |- *.
    destruct (dxftype e =? "LINE") eqn:Ht.
    + apply String.eqb_eq in Ht. destruct rest as [|q rest'].
      * destruct (Hextreme [p0] Hf) as (q & Hq & ->).
        split; [discriminate|]. right. right. right. exists q. split; easy.
      * pose proof (line_rules_reasons p0 q c m) as Hline.
        destruct (line_rules fmt2f p0 q c m) as [[v|]|msg].
        -- destruct Hline as [->|[(d & ->)|(d & ->)]]; cbn [snd];
             (split; [discriminate|]); right; right; left;
             (split; [exact Ht|]).
           ++ left. reflexivity.
           ++ right. left. exists d. reflexivity.
           ++ right. right. left. exists d. reflexivity.
        -- destruct (Hextreme _ Hf) as (q' & Hq & ->).
           split; [discriminate|]. right. right. right. exists q'. split; easy.
        -- subst msg. cbn [snd]. split; [discriminate|].
           right. right. left. split; [exact Ht|].
           right. right. right. reflexivity.
    + destruct (Hextreme _ Hf) as (q & Hq & ->).
      split; [discriminate|]. right. right. right. exists q. split; easy.
Qed.

End ReasonProperties.

Lemma collect_points_in (es : list Entity) (e : Entity) (p : Point) :
  In e es -> recognized e = true -> In p (get_entity_points e) ->
  In p (collect_points es).
Proof.
  intros He Hr Hp. unfold collect_points. apply in_flat_map.
  exists e. split; [exact He|]. rewrite Hr. exact Hp.
Qed.

Lemma distance_within_square (a b : Point) (m : R) :
  Rabs (px a - px b) <= m -> Rabs (py a - py b) <= m ->
  distance_to a b <= 2 * m.
Proof.
  intros Hx Hy.
  pose proof (Rabs_pos (px a - px b)) as Hp.
  apply Rabs_le_bounds in Hx. apply Rabs_le_bounds in Hy.
  unfold distance_to. apply sqrt_le_of_sq; [lra|]. nra.
Qed.

(** The first two points of an entity of the design are within twice the
    design dimension of each other. *)
Lemma design_scale_bounds (es : list Entity) (c : Point) (m : R)
  (e : Entity) (a b : Point) (rest : list Point) :
  get_design_statistics es = (c, m) ->
  In e es -> recognized e = true -> get_entity_points e = a :: b :: rest ->
  0 <= m /\ distance_to a b <= 2 * m.
Proof.
  intros Hstat He Hr Hpts.
  assert (Ha : In a (collect_points es)).
  { apply (collect_points_in es e a He Hr). rewrite Hpts. left. reflexivity. }
  assert (Hb : In b (collect_points es)).
  { apply (collect_points_in es e b He Hr). rewrite Hpts. right. left.
    reflexivity. }
  assert (Hne : collect_points es <> []).
  { intros H. rewrite H in Ha. destruct Ha. }
  rewrite (get_design_statistics_nonempty es Hne) in Hstat.
  injection Hstat as _ <-.
  destruct (coordinate_range px _ Hne) as (Hx & _ & _).
  destruct (coordinate_range py _ Hne) as (Hy & _ & _).
  cbv zeta in *.
  set (lox := py_min (map px (collect_points es))) in *.
  set (hix := py_max (map px (collect_points es))) in *.
  set (loy := py_min (map py (collect_points es))) in *.
  set (hiy := py_max (map py (collect_points es))) in *.
  pose proof (Rmax_l (hix - lox) (hiy - loy)) as Hl.
  pose proof (Rmax_r (hix - lox) (hiy - loy)) as Hr'.
  set (M := Rmax (hix - lox) (hiy - loy)) in *.
  pose proof (Hx a Ha) as Hax. pose proof (Hx b Hb) as Hbx.
  pose proof (Hy a Ha) as Hay. pose proof (Hy b Hb) as Hby.
  split; [lra|].
  apply distance_within_square; apply Rabs_le; lra.
Qed.

Section TooLong.

Variable fmt2f : R -> string.

(** The LINE rules between endpoints in range of each other and within ten
    times the design dimension never give the too-long answer. *)
Lemma line_rules_not_too_long (a b c : Point) (m d : R) :
  in_range a b -> distance_to a b <= m * 10 ->
  line_rules fmt2f a b c m <>
  Val (Some (true, "Línea demasiado larga: " ++ fmt2f d ++ "mm")).
Proof.
  intros Hr Hlen. unfold line_rules, Rgtb.
  destruct (near_origin a || near_origin b); [discriminate|].
  destruct (in_range_squares a b Hr) as [Hx Hy].
  rewrite (distance_to_call_in_range a b Hx Hy). cbn [bind].
  rewrite (proj2 (Rltb_false_iff (m * 10) (distance_to a b)) Hlen).
  destruct (distance_to_call _ c) as [d'|msg]; cbn [bind]; [|discriminate].
  destruct (Rltb _ _); discriminate.
Qed.

(** X14.  In a successful run the first two points of every record are
    within twice the design dimension of each other, because the design
    statistics are taken over the entity's own points as well; so the
    too-long rule (more than ten times the design dimension) never matches:
    no phantom whose first two points are in range of each other carries the
    too-long reason. *)
Theorem too_long_rule_never_matches (self : DXFProcessor) (es : list Entity)
  (r : AnalysisResult) :
  snd (process_entities fmt2f self es) = Success r ->
  let m := Stats.max_design_dimension (statistics r) in
  (forall p a b rest,
     In p (entities_valid r) \/ In p (entities_phantom r) ->
     points p = a :: b :: rest -> distance_to a b <= 2 * m) /\
  (forall p a b rest d,
     In p (entities_phantom r) -> points p = a :: b :: rest -> in_range a b ->
     rejection_reason p <>
     Some ("Línea demasiado larga: " ++ fmt2f d ++ "mm")).
Proof.
  intros H. destruct (run_records fmt2f self es r H) as (Hstat & Fv & Fp).
  set (c := Stats.design_center (statistics r)) in *.
  cbv zeta.
  set (m := Stats.max_design_dimension (statistics r)) in *.
  rewrite (classified_valid_unfold fmt2f es c m Hstat) in Fv.
  rewrite (classified_phantom_unfold fmt2f es c m Hstat) in Fp.
  assert (Hbound : forall e a b rest,
            In e es -> kept e = true -> get_entity_points e = a :: b :: rest ->
            0 <= m /\ distance_to a b <= 2 * m).
  { intros e a b rest He Hk Hpts.
    unfold kept in Hk. apply andb_true_iff in Hk. destruct Hk as [Hrec _].
    apply (design_scale_bounds es c m e a b rest Hstat He Hrec Hpts). }
  split.
  - intros p a b rest [Hp|Hp] Hpts.
    + destruct (Forall2_in_right _ _ _ p Fv Hp) as (e & He & Hk & l & _ & ->).
      apply filter_In in He. destruct He as [He _].
      cbn [points] in Hpts. apply (Hbound e a b rest He Hk Hpts).
    + destruct (Forall2_in_right _ _ _ p Fp Hp) as (e & He & Hk & l & _ & ->).
      apply filter_In in He. destruct He as [He _].
      cbn [points] in Hpts. apply (Hbound e a b rest He Hk Hpts).
  - intros p a b rest d Hp Hpts Hrange.
    destruct (Forall2_in_right _ _ _ p Fp Hp) as (e & He & Hk & l & Hl & ->).
    apply filter_In in He. destruct He as [He Hf].
    apply andb_true_iff in Hf. destruct Hf as [_ Hf].
    cbn [points] in Hpts. cbn [rejection_reason]. rewrite Hf.
    destruct (Hbound e a b rest He Hk Hpts) as [Hm Hlen].
    rewrite Hpts in Hf |- *.
    destruct (verdict_cases fmt2f e a (b :: rest) c m)
      as [(msg & _ & ->)|[(l' & _ & _ & ->)|[(l' & _ & _ & _ & ->)
                                            |(l' & _ & _ & _ & ->)]]];
      try discriminate.
    destruct (dxftype e =? "LINE").
    + pose proof (line_rules_not_too_long a b c m d Hrange) as Hnot.
      pose proof (line_rules_reasons fmt2f a b c m) as Hline.
      destruct (line_rules fmt2f a b c m) as [[v|]|msg].
      * intros Heq. injection Heq as Heq. apply Hnot; [lra|].
        destruct Hline as [->|[(d1 & ->)|(d1 & ->)]]; cbn [snd] in Heq;
          try discriminate.
        rewrite Heq. reflexivity.
      * unfold extreme_rule. destruct (find extreme _); discriminate.
      * discriminate.
    + unfold extreme_rule. destruct (find extreme _); discriminate.
Qed.

End TooLong.

Section FailureProperties.

Variable fmt2f : R -> string.

Lemma process_loop_failure (c : Point) (m : R) (es : list Entity)
  (msg : string) :
  forall self,
    (exists self', process_loop fmt2f c m es self = (self', Some msg)) <->
    exists pre e post,
      es = (pre ++ e :: post)%list /\ kept e = true /\
      dxf_layer e = Raises msg /\
      forall x, In x pre -> kept x = true -> exists l, dxf_layer x = Val l.
Proof.
  induction es as [|e es IH]; intros self.
  - split.
    + intros (self' & H). discriminate.
    + intros (pre & e & post & H & _). destruct pre; discriminate.
  - cbn [process_loop]. destruct (kept e) eqn:Hk.
    + rewrite (process_entity_kept fmt2f c m self e Hk). cbv zeta.
      destruct (dxf_layer e) as [l|msg'] eqn:Hl.
      * destruct (fst (is_phantom_entity fmt2f e (get_entity_points e) c m));
          rewrite IH;
          (split;
           [ intros (pre & x & post & -> & Hx & Hlx & Hpre);
             exists (e :: pre), x, post; repeat split; try assumption;
             intros y [<-|Hy] Hky;
             [exists l; exact Hl | apply Hpre; assumption]
           | intros (pre & x & post & Heq & Hx & Hlx & Hpre);
             destruct pre as [|y pre]; cbn [app] in Heq;
             injection Heq as <- ->;
             [ congruence
             | exists pre, x, post; repeat split; try assumption;
               intros z Hz; apply Hpre; right; exact Hz ] ]).
      * split.
        -- intros (self' & H). injection H as _ <-.
           exists [], e, es. repeat split; try assumption. intros x [].
        -- intros (pre & x & post & Heq & Hx & Hlx & Hpre).
           destruct pre as [|y pre]; cbn [app] in Heq; injection Heq as <- ->.
           ++ exists self. congruence.
           ++ destruct (Hpre e (or_introl eq_refl) Hk) as (l & Hl').
              congruence.
    + rewrite (process_entity_skip fmt2f c m self e Hk). rewrite (IH self).
      split.
      * intros (pre & x & post & -> & Hx & Hlx & Hpre).
        exists (e :: pre), x, post. repeat split; try assumption.
        intros y [<-|Hy] Hky; [congruence | apply Hpre; assumption].
      * intros (pre & x & post & Heq & Hx & Hlx & Hpre).
        destruct pre as [|y pre]; cbn [app] in Heq; injection Heq as <- ->.
        -- congruence.
        -- exists pre, x, post. repeat split; try assumption.
           intros z Hz. apply Hpre. right. exact Hz.
Qed.

(** X19.  [process_dxf_file] answers with a failure carrying [msg] in two
    cases only: reading the file raised [msg], or the first kept entity whose
    layer cannot be read raised [msg] when its layer was read. *)
Theorem run_failure_iff (self : DXFProcessor)
  (modelspace : attr (list Entity)) (msg : string) :
  snd (process_dxf_file fmt2f self modelspace) = Failure msg <->
  modelspace = Raises msg \/
  exists pre e post,
    modelspace = Val (pre ++ e :: post)%list /\ kept e = true /\
    dxf_layer e = Raises msg /\
    forall x, In x pre -> kept x = true -> exists l, dxf_layer x = Val l.
Proof.
  destruct modelspace as [es|msg0]; cbn [process_dxf_file].
  - unfold process_entities.
    destruct (get_design_statistics es) as [c m].
    pose proof (process_loop_failure c m es msg (mkDXFProcessor [] [])) as Hf.
    destruct (process_loop fmt2f c m es (mkDXFProcessor [] []))
      as [self1 [msg1|]]; cbn [snd].
    + split.
      * intros H. injection H as ->. right.
        destruct (proj1 Hf (ex_intro _ self1 eq_refl))
          as (pre & e & post & -> & Hrest).
        exists pre, e, post. split; [reflexivity | exact Hrest].
      * intros [H|(pre & e & post & Heq & Hrest)]; [discriminate|].
        injection Heq as ->.
        destruct (proj2 Hf (ex_intro _ pre (ex_intro _ e (ex_intro _ post
                    (conj eq_refl Hrest))))) as (self' & H).
        congruence.
    + split; [discriminate|].
      intros [H|(pre & e & post & Heq & Hrest)]; [discriminate|].
      injection Heq as ->.
      destruct (proj2 Hf (ex_intro _ pre (ex_intro _ e (ex_intro _ post
                  (conj eq_refl Hrest))))) as (self' & H).
      discriminate.
  - cbn [snd]. split.
    + intros H. injection H as ->. left. reflexivity.
    + intros [H|(pre & e & post & Heq & _)]; [injection H as ->; reflexivity|].
      discriminate.
Qed.

End FailureProperties.

(** ** Circles and arcs *)

Lemma py_min_eq (xs : list R) (v : R) :
  In v xs -> (forall x, In x xs -> v <= x) -> py_min xs = v.
Proof.
  intros Hin Hle.
  assert (Hne : xs <> []) by (intros ->; destruct Hin).
  destruct (py_min_spec xs Hne) as [Hm Hmin].
  apply Rle_antisym; [apply Hmin, Hin | apply Hle, Hm].
Qed.

Lemma py_max_eq (xs : list R) (v : R) :
  In v xs -> (forall x, In x xs -> x <= v) -> py_max xs = v.
Proof.
  intros Hin Hle.
  assert (Hne : xs <> []) by (intros ->; destruct Hin).
  destruct (py_max_spec xs Hne) as [Hm Hmax].
  apply Rle_antisym; [apply Hle, Hm | apply Hmax, Hin].
Qed.

Lemma circle_point_axes (c : Point) (r : R) :
  circle_point c r 0 = mkPoint (px c + r) (py c) /\
  circle_point c r 4 = mkPoint (px c) (py c + r) /\
  circle_point c r 8 = mkPoint (px c - r) (py c) /\
  circle_point c r 12 = mkPoint (px c) (py c - r).
Proof.
  unfold circle_point, circle_angle.
  replace (2 * PI * INR 0 / 16) with 0 by (simpl; lra).
  replace (2 * PI * INR 4 / 16) with (PI / 2) by (simpl; lra).
  replace (2 * PI * INR 8 / 16) with PI by (simpl; lra).
  replace (2 * PI * INR 12 / 16) with (3 * (PI / 2)) by (simpl; lra).
  rewrite cos_0, sin_0, cos_PI2, sin_PI2, cos_PI, sin_PI, cos_3PI2, sin_3PI2.
  repeat split; f_equal; ring.
Qed.

Lemma scaled_unit_bound (r u : R) : -1 <= u <= 1 -> - Rabs r <= r * u <= Rabs r.
Proof.
  intros Hu. unfold Rabs. destruct (Rcase_abs r); split; nra.
Qed.

Lemma circle_point_within (c : Point) (r : R) (i : nat) :
  px c - Rabs r <= px (circle_point c r i) <= px c + Rabs r /\
  py c - Rabs r <= py (circle_point c r i) <= py c + Rabs r.
Proof.
  unfold circle_point. cbn [px py].
  pose proof (scaled_unit_bound r _ (COS_bound (circle_angle i))).
  pose proof (scaled_unit_bound r _ (SIN_bound (circle_angle i))).
  lra.
Qed.

Lemma circle_point_opposite (c : Point) (r : R) (i : nat) :
  circle_point c r (i + 8) =
  mkPoint (2 * px c - px (circle_point c r i))
          (2 * py c - py (circle_point c r i)).
Proof.
  unfold circle_point, circle_angle. cbn [px py].
  replace (2 * PI * INR (i + 8) / 16) with (2 * PI * INR i / 16 + PI)
    by (rewrite plus_INR; simpl; lra).
  rewrite neg_cos, neg_sin. f_equal; ring.
Qed.

(** X20.  The samples 0, 4, 8 and 12 of a circle are its points on the axes
    through the center, the sample [i + 8] is the mirror image of the sample
    [i] through the center, and the bounding box of a record holding the 16
    samples is the exact box of the circle, the center plus and minus [|r|]
    on each axis. *)
Theorem circle_extent (e : Entity) (c : Point) (r : R) :
  dxftype e = "CIRCLE" -> dxf_center e = Val c -> dxf_radius e = Val r ->
  let pts := get_entity_points e in
  nth 0 pts origin = mkPoint (px c + r) (py c) /\
  nth 4 pts origin = mkPoint (px c) (py c + r) /\
  nth 8 pts origin = mkPoint (px c - r) (py c) /\
  nth 12 pts origin = mkPoint (px c) (py c - r) /\
  (forall i, (i < 8)%nat ->
     nth (i + 8) pts origin =
     mkPoint (2 * px c - px (nth i pts origin))
             (2 * py c - py (nth i pts origin))) /\
  forall p, points p = pts ->
    calculate_bounding_box [p] =
    mkBoundingBox (px c - Rabs r) (py c - Rabs r)
                  (px c + Rabs r) (py c + Rabs r).
Proof.
  intros Ht Hc Hr. cbv zeta.
  rewrite (get_entity_points_circle e c r Ht Hc Hr).
  destruct (circle_point_axes c r) as (H0 & H4 & H8 & H12).
  split; [rewrite nth_map_range by lia; exact H0|].
  split; [rewrite nth_map_range by lia; exact H4|].
  split; [rewrite nth_map_range by lia; exact H8|].
  split; [rewrite nth_map_range by lia; exact H12|].
  split.
  { intros i Hi. rewrite !nth_map_range by lia. apply circle_point_opposite. }
  intros p Hp.
  assert (Hall : flat_map points [p] = map (circle_point c r) (range 16)).
  { cbn [flat_map]. rewrite app_nil_r. exact Hp. }
  rewrite calculate_bounding_box_nonempty by (rewrite Hall; discriminate).
  rewrite Hall.
  assert (Hin : forall i, (i < 16)%nat ->
                  In (circle_point c r i) (map (circle_point c r) (range 16))).
  { intros i Hi. apply in_map. unfold range. apply in_seq. lia. }
  assert (Hbound : forall q, In q (map (circle_point c r) (range 16)) ->
             px c - Rabs r <= px q <= px c + Rabs r /\
             py c - Rabs r <= py q <= py c + Rabs r).
  { intros q Hq. apply in_map_iff in Hq. destruct Hq as (i & <- & _).
    apply circle_point_within. }
  assert (Hcoord : forall (f : Point -> R) (v : R) (i j : nat),
             (i < 16)%nat -> (j < 16)%nat ->
             (0 <= r -> f (circle_point c r i) = v) ->
             (r < 0 -> f (circle_point c r j) = v) ->
             In v (map f (map (circle_point c r) (range 16)))).
  { intros f v i j Hi Hj Hpos Hneg. destruct (Rle_lt_dec 0 r) as [Hr0|Hr0].
    - rewrite <- (Hpos Hr0). apply in_map, Hin, Hi.
    - rewrite <- (Hneg Hr0). apply in_map, Hin, Hj. }
  assert (Habs_pos : 0 <= r -> Rabs r = r) by (intros; apply Rabs_pos_eq; lra).
  assert (Habs_neg : r < 0 -> Rabs r = - r) by (intros; apply Rabs_left; lra).
  f_equal.
  - apply py_min_eq.
    + apply (Hcoord px _ 8%nat 0%nat); try lia; intros Hs;
        [rewrite H8, (Habs_pos Hs) | rewrite H0, (Habs_neg Hs)];
        cbn [px]; ring.
    + intros x Hx. apply in_map_iff in Hx. destruct Hx as (q & <- & Hq).
      apply Hbound, Hq.
  - apply py_min_eq.
    + apply (Hcoord py _ 12%nat 4%nat); try lia; intros Hs;
        [rewrite H12, (Habs_pos Hs) | rewrite H4, (Habs_neg Hs)];
        cbn [py]; ring.
    + intros x Hx. apply in_map_iff in Hx. destruct Hx as (q & <- & Hq).
      apply Hbound, Hq.
  - apply py_max_eq.
    + apply (Hcoord px _ 0%nat 8%nat); try lia; intros Hs;
        [rewrite H0, (Habs_pos Hs) | rewrite H8, (Habs_neg Hs)];
        cbn [px]; ring.
    + intros x Hx. apply in_map_iff in Hx. destruct Hx as (q & <- & Hq).
      apply Hbound, Hq.
  - apply py_max_eq.
    + apply (Hcoord py _ 4%nat 12%nat); try lia; intros Hs;
        [rewrite H4, (Habs_pos Hs) | rewrite H12, (Habs_neg Hs)];
        cbn [py]; ring.
    + intros x Hx. apply in_map_iff in Hx. destruct Hx as (q & <- & Hq).
      apply Hbound, Hq.
Qed.

Lemma arc_angle_reverse (s t : R) (i : nat) :
  (i <= 16)%nat -> arc_angle t s i = arc_angle s t (16 - i).
Proof.
  intros Hi. unfold arc_angle, segments. rewrite minus_INR by exact Hi.
  simpl INR. field.
Qed.

Lemma calculate_entity_length_arc (e : Entity) (r s t : R) (pts : list Point) :
  dxftype e = "ARC" -> dxf_radius e = Val r ->
  dxf_start_angle e = Val s -> dxf_end_angle e = Val t ->
  calculate_entity_length e pts = Rabs (radians t - radians s) * r.
Proof.
  intros Ht Hr Hs He. unfold calculate_entity_length.
  rewrite Ht, Hr, Hs, He. reflexivity.
Qed.

(** X21.  Every sample of an arc is at distance [|r|] from its center; and
    exchanging the start and the end angle gives the same samples in the
    opposite order and the same length. *)
Theorem arc_reversal (e e' : Entity) (c : Point) (r s t : R) :
  dxftype e = "ARC" -> dxf_center e = Val c -> dxf_radius e = Val r ->
  dxf_start_angle e = Val s -> dxf_end_angle e = Val t ->
  dxftype e' = "ARC" -> dxf_center e' = Val c -> dxf_radius e' = Val r ->
  dxf_start_angle e' = Val t -> dxf_end_angle e' = Val s ->
  (forall p, In p (get_entity_points e) -> distance_to p c = Rabs r) /\
  get_entity_points e' = rev (get_entity_points e) /\
  calculate_entity_length e' (get_entity_points e') =
  calculate_entity_length e (get_entity_points e).
Proof.
  intros Ht Hc Hr Hs He Ht' Hc' Hr' Hs' He'.
  rewrite (get_entity_points_arc e c r s t Ht Hc Hr Hs He).
  rewrite (get_entity_points_arc e' c r t s Ht' Hc' Hr' Hs' He').
  split; [|split].
  - intros p Hp. apply in_map_iff in Hp. destruct Hp as (i & <- & _).
    apply distance_on_circle.
  - transitivity (map (fun i => arc_point c r (radians s) (radians t) (16 - i))
                      (range (segments + 1))).
    + apply map_ext_in. intros i Hi. unfold range, segments in Hi.
      apply in_seq in Hi. unfold arc_point.
      rewrite arc_angle_reverse by lia. reflexivity.
    + reflexivity.
  - rewrite (calculate_entity_length_arc e r s t _ Ht Hr Hs He).
    rewrite (calculate_entity_length_arc e' r t s _ Ht' Hr' Hs' He').
    rewrite Rabs_minus_sym. reflexivity.
Qed.

Lemma radians_full_turn (s : R) : radians (s + 360) = radians s + 2 * PI.
Proof. unfold radians. field. Qed.

(** X22.  The angles of an arc are not reduced: an arc whose end angle is its
    start angle plus 360 degrees has the length [2*PI*r] of the whole circle,
    its samples are those of the circle turned by the start angle, and its
    last sample is its first. *)
Theorem arc_full_turn (e : Entity) (c : Point) (r s : R) :
  dxftype e = "ARC" -> dxf_center e = Val c -> dxf_radius e = Val r ->
  dxf_start_angle e = Val s -> dxf_end_angle e = Val (s + 360) ->
  calculate_entity_length e (get_entity_points e) = 2 * PI * r /\
  (forall i, (i <= 16)%nat ->
     nth i (get_entity_points e) origin =
     mkPoint (px c + r * cos (radians s + circle_angle i))
             (py c + r * sin (radians s + circle_angle i))) /\
  last (get_entity_points e) origin =
  nth 0 (get_entity_points e) origin.
Proof.
  intros Ht Hc Hr Hs He.
  rewrite (calculate_entity_length_arc e r s (s + 360) _ Ht Hr Hs He).
  rewrite (get_entity_points_arc e c r s (s + 360) Ht Hc Hr Hs He).
  rewrite radians_full_turn.
  pose proof PI_RGT_0 as Hpi.
  split; [|split].
  - replace (radians s + 2 * PI - radians s) with (2 * PI) by ring.
    rewrite Rabs_pos_eq by lra. reflexivity.
  - intros i Hi. rewrite nth_map_range by (unfold segments; lia).
    unfold arc_point, arc_angle, circle_angle, segments.
    replace (radians s + (radians s + 2 * PI - radians s) * INR i / INR 16)
      with (radians s + 2 * PI * INR i / 16) by (simpl; lra).
    reflexivity.
  - change (range (segments + 1)) with (seq 0 16 ++ [segments])%list.
    rewrite map_app. cbn [map]. rewrite last_last.
    cbn [seq map app nth]. unfold arc_point.
    rewrite arc_angle_first, arc_angle_last.
    replace (radians s + 2 * PI) with (radians s + 2 * INR 1 * PI)
      by (simpl; ring).
    rewrite cos_period, sin_period. reflexivity.
Qed.

(** * The further properties on concrete designs *)

Lemma polyline_sampling_witness :
  let vs := [Val (mkPoint 0 0); Val (mkPoint 3 4); Raises "vertex";
             Val (mkPoint 9 9)] in
  let pts := get_entity_points broken_polyline in
  map Val pts = firstn (List.length pts) vs /\
  exists msg, nth_error vs (List.length pts) = Some (Raises msg).
Proof.
  intros vs pts.
  destruct (polyline_sampling broken_polyline vs
              (or_introl (conj eq_refl eq_refl))) as (Hprefix & _ & Hstop & _).
  split; [exact Hprefix|]. apply Hstop. cbn. lia.
Defined.

Lemma unrecognized_sampling_witness :
  get_entity_points no_text = [] /\
  calculate_entity_length no_text square_path = 0.
Proof.
  destruct (unrecognized_sampling no_text eq_refl) as [Hpts Hlen].
  split; [exact Hpts | apply Hlen].
Defined.

Lemma far_point_is_extreme :
  exists p, In p (get_entity_points far_polyline) /\
            (50000 < Rabs (px p) \/ 50000 < Rabs (py p)).
Proof.
  exists (mkPoint 60000 0). split; [right; left; reflexivity|].
  left. cbn [px]. rewrite Rabs_pos_eq; lra.
Qed.

Lemma extreme_coordinates_verdict_witness :
  fst (is_phantom_entity fmt_sample far_polyline
                         (get_entity_points far_polyline) origin 1000) = true.
Proof.
  destruct (extreme_coordinates_verdict fmt_sample far_polyline
              (get_entity_points far_polyline) origin 1000
              far_point_is_extreme) as [Hfst _].
  exact Hfst.
Defined.

Lemma invisible_verdict_witness :
  is_phantom_entity fmt_sample hidden_line [mkPoint 1 1; mkPoint 2 2]
                    origin 1000 = (true, "Entidad invisible").
Proof.
  destruct (invisible_verdict fmt_sample hidden_line
              [mkPoint 1 1; mkPoint 2 2] origin 1000 eq_refl) as [Hfst Hsnd].
  rewrite (surjective_pairing (is_phantom_entity _ _ _ _ _)).
  rewrite Hfst, (Hsnd "CUT" ltac:(discriminate) eq_refl eq_refl).
  reflexivity.
Defined.

Lemma circle_is_not_a_line : dxftype unit_circle <> "LINE".
Proof. discriminate. Qed.

Lemma other_types_ignore_design_witness :
  is_phantom_entity fmt_sample unit_circle (get_entity_points unit_circle)
                    origin 1 =
  is_phantom_entity fmt_sample unit_circle (get_entity_points unit_circle)
                    (mkPoint 100000 100000) 0.
Proof.
  exact (other_types_ignore_design fmt_sample unit_circle
           (get_entity_points unit_circle) origin (mkPoint 100000 100000) 1 0
           circle_is_not_a_line).
Defined.

Lemma sample_has_points : collect_points sample_design <> [].
Proof. discriminate. Qed.

Lemma design_statistics_bounds_witness :
  Rabs (px (mkPoint 2 2) - 3 / 2) <= 1 /\ Rabs (py (mkPoint 2 2) - 3 / 2) <= 1.
Proof.
  destruct (design_statistics_bounds sample_design (mkPoint (3 / 2) (3 / 2)) 1
              sample_has_points sample_statistics) as (_ & Hc & _).
  apply (Hc (mkPoint 2 2)). right. left. reflexivity.
Defined.

Lemma result_records_witness :
  is_valid sample_phantom = false /\ rejection_reason sample_phantom <> None /\
  exists e, In e sample_design /\ dxf_layer e = Val (layer sample_phantom).
Proof.
  destruct (result_records fmt_sample fresh sample_design sample_result
              sample_run) as [_ Hphantom].
  destruct (Hphantom sample_phantom (or_introl eq_refl))
    as (Hv & Hr & e & He & _ & Hl & _).
  split; [exact Hv|]. split; [exact Hr|]. exists e. split; assumption.
Defined.

Lemma reported_totals_accuracy_witness :
  Rabs (total_mm (cut_length sample_result) / 1000 -
        total_m (cut_length sample_result)) <= 505 / 1000000.
Proof.
  destruct (reported_totals_accuracy fmt_sample fresh sample_design
              sample_result sample_run) as (_ & _ & H).
  exact H.
Defined.

Lemma sample_radii_nonnegative :
  forall e x, In e sample_design -> dxf_radius e = Val x -> 0 <= x.
Proof.
  intros e x [<-|[<-|[<-|[<-|[]]]]]; discriminate.
Qed.

Lemma totals_nonnegative_witness :
  0 <= total_mm (cut_length sample_result) /\
  0 <= total_m (cut_length sample_result).
Proof.
  destruct (totals_nonnegative fmt_sample fresh sample_design sample_result
              sample_radii_nonnegative sample_run) as (_ & _ & Hmm & Hm).
  split; [exact Hmm | exact Hm].
Defined.

Lemma circle_extent_witness :
  calculate_bounding_box
    [mkProcessedEntity "CIRCLE" (get_entity_points unit_circle)
                       (sampled_length unit_circle) "CUT" true None] =
  mkBoundingBox (5 - Rabs 1) (5 - Rabs 1) (5 + Rabs 1) (5 + Rabs 1).
Proof.
  destruct (circle_extent unit_circle (mkPoint 5 5) 1 eq_refl eq_refl eq_refl)
    as (_ & _ & _ & _ & _ & Hbox).
  apply Hbox. reflexivity.
Defined.

Lemma arc_reversal_witness :
  get_entity_points arc_backward = rev (get_entity_points arc_forward) /\
  calculate_entity_length arc_backward (get_entity_points arc_backward) =
  calculate_entity_length arc_forward (get_entity_points arc_forward).
Proof.
  destruct (arc_reversal arc_forward arc_backward (mkPoint 0 0) 2 350 10
              eq_refl eq_refl eq_refl eq_refl eq_refl
              eq_refl eq_refl eq_refl eq_refl eq_refl) as (_ & Hrev & Hlen).
  split; [exact Hrev | exact Hlen].
Defined.

Lemma arc_full_turn_witness :
  calculate_entity_length arc_turn (get_entity_points arc_turn) = 2 * PI * 2 /\
  last (get_entity_points arc_turn) origin =
  nth 0 (get_entity_points arc_turn) origin.
Proof.
  destruct (arc_full_turn arc_turn (mkPoint 0 0) 2 90
              eq_refl eq_refl eq_refl eq_refl eq_refl) as (Hlen & _ & Hlast).
  split; [exact Hlen | exact Hlast].
Defined.

Lemma sample_line_in_range : in_range (mkPoint 1 1) (mkPoint 2 2).
Proof.
  pose proof overflow_threshold_large. unfold in_range. cbn [px py]. lra.
Qed.







Lemma result_reasons_witness :
  exists reason,
    rejection_reason sample_phantom = Some reason /\
    reason <> "Sin puntos válidos".
Proof.
  destruct (result_reasons fmt_sample fresh sample_design sample_result
              sample_run sample_phantom (or_introl eq_refl))
    as (reason & Hr & Hne & _).
  exists reason. split; assumption.
Defined.

Lemma too_long_rule_never_matches_witness :
  distance_to (mkPoint 1 1) (mkPoint 2 2) <= 2 * 1 /\
  rejection_reason sample_phantom <>
  Some ("Línea demasiado larga: " ++ fmt_sample 0 ++ "mm").
Proof.
  destruct (too_long_rule_never_matches fmt_sample fresh sample_design
              sample_result sample_run) as [Hlen Hreason].
  split.
  - exact (Hlen sample_valid (mkPoint 1 1) (mkPoint 2 2) []
                (or_introl (or_introl eq_refl)) eq_refl).
  - exact (Hreason sample_phantom (mkPoint 1 1) (mkPoint 2 2) [] 0
                   (or_introl eq_refl) eq_refl sample_line_in_range).
Defined.
